(** * OS-DASHBOARD: the server's sampling, normalisation and export paths

    A shallow embedding of the Express handlers of [src/server.cjs] and of
    the server variants kept in [src/public/script.js], with the properties
    the specification states about them.

    Modelling conventions.
    - A JavaScript primitive is a [value]; a Number is a [num]: NaN, the
      two infinities, or a finite number given by its exact rational value.
      Binary64 rounding, overflow and the sign of zero are not represented.
    - A string is a [string] of bytes (UTF-8); whitespace and letter case
      are those of ASCII.
    - An asynchronous sensor query is its [outcome]: the reading it resolves
      to, or a rejection. A reading that may be [null] is an [option].
    - A handler is a function from the request and the settled readings to
      its response; the thresholds and the log file are passed in and out.
    - [Array.prototype.sort] is a stable insertion sort.
    - The text of a finite Number ([Number::toString]) is a primitive of the
      runtime and is a parameter ([NumberToString]) of everything that
      prints one. *)

From Stdlib Require Import ZArith NArith QArith Qround Qabs Qreduction Qcanon.
From Stdlib Require Import List String Ascii Bool Lia Lqa.
From Stdlib Require Import Sorted Permutation.
From Stdlib Require Import DecimalString DecimalN DecimalPos.
Import ListNotations.

Local Open Scope Z_scope.
Local Open Scope string_scope.

(** ** Numbers *)

Inductive num : Type :=
| NaN
| PosInf
| NegInf
| Fin (q : Q).

Definition inf_of_sign (c : comparison) : num :=
  match c with Gt => PosInf | Lt => NegInf | Eq => NaN end.

Definition num_sign (x : num) : comparison :=
  match x with
  | NaN => Eq
  | PosInf => Gt
  | NegInf => Lt
  | Fin q => (q ?= 0)%Q
  end.

Definition sign_mul (a b : comparison) : comparison :=
  match a, b with
  | Eq, _ | _, Eq => Eq
  | Gt, Gt | Lt, Lt => Gt
  | _, _ => Lt
  end.

(** Unary minus. *)
Definition num_neg (x : num) : num :=
  match x with
  | NaN => NaN
  | PosInf => NegInf
  | NegInf => PosInf
  | Fin q => Fin (Qred (- q))
  end.

(** [x - y]. *)
Definition num_sub (x y : num) : num :=
  match x, y with
  | NaN, _ | _, NaN => NaN
  | PosInf, PosInf | NegInf, NegInf => NaN
  | PosInf, _ | _, NegInf => PosInf
  | NegInf, _ | _, PosInf => NegInf
  | Fin a, Fin b => Fin (Qred (a - b))
  end.

(** [x + y]. *)
Definition num_add (x y : num) : num :=
  match x, y with
  | NaN, _ | _, NaN => NaN
  | PosInf, NegInf | NegInf, PosInf => NaN
  | PosInf, _ | _, PosInf => PosInf
  | NegInf, _ | _, NegInf => NegInf
  | Fin a, Fin b => Fin (Qred (a + b))
  end.

(** [x * y]. *)
Definition num_mul (x y : num) : num :=
  match x, y with
  | NaN, _ | _, NaN => NaN
  | Fin a, Fin b => Fin (Qred (a * b))
  | _, _ => inf_of_sign (sign_mul (num_sign x) (num_sign y))
  end.

(** [x / y]; a zero divisor counts as positive zero. *)
Definition num_div (x y : num) : num :=
  match x, y with
  | NaN, _ | _, NaN => NaN
  | Fin a, Fin b =>
      if Qeq_bool b 0 then inf_of_sign (a ?= 0)%Q else Fin (Qred (a / b))
  | Fin _, _ => Fin 0
  | _, Fin b =>
      inf_of_sign (sign_mul (num_sign x) (if Qeq_bool b 0 then Gt else (b ?= 0)%Q))
  | _, _ => NaN
  end.

(** [x > y] on Numbers. *)
Definition num_gt (x y : num) : bool :=
  match x, y with
  | NaN, _ | _, NaN => false
  | PosInf, PosInf => false
  | PosInf, _ => true
  | _, PosInf => false
  | NegInf, _ => false
  | _, NegInf => true
  | Fin a, Fin b => match (a ?= b)%Q with Gt => true | _ => false end
  end.

(** [Math.round]: the nearest integer, a tie going up. *)
Definition Math_round (x : num) : num :=
  match x with
  | Fin q => Fin (inject_Z (Qfloor (q + (1 # 2))))
  | _ => x
  end.

(** [Number.isFinite] on a Number. *)
Definition isFinite (x : num) : bool :=
  match x with Fin _ => true | _ => false end.

(** [Math.floor]. *)
Definition Math_floor (x : num) : num :=
  match x with
  | Fin q => Fin (inject_Z (Qfloor q))
  | _ => x
  end.

(** ** Strings *)

Definition dquote : ascii := "034"%char.
Definition newline : ascii := "010"%char.

(** White space and line terminators of the ASCII range. *)
Definition is_ws (c : ascii) : bool :=
  let n := N_of_ascii c in
  ((9 <=? n) && (n <=? 13) || (n =? 32))%N.

Fixpoint trimStart (s : string) : string :=
  match s with
  | String c r => if is_ws c then trimStart r else s
  | EmptyString => EmptyString
  end.

Fixpoint trimEnd (s : string) : string :=
  match s with
  | String c r =>
      match trimEnd r with
      | EmptyString => if is_ws c then EmptyString else String c EmptyString
      | r' => String c r'
      end
  | EmptyString => EmptyString
  end.

(** [String.prototype.trim]. *)
Definition trim (s : string) : string := trimEnd (trimStart s).

(** [s.split('\n')]: the pieces between line feeds, never the empty list. *)
Fixpoint split_lines (s : string) : list string :=
  match s with
  | EmptyString => [EmptyString]
  | String c r =>
      if Ascii.eqb c newline then EmptyString :: split_lines r
      else match split_lines r with
           | l :: ls => String c l :: ls
           | [] => [String c EmptyString]
           end
  end.

(** [String.prototype.toLowerCase] on the ASCII letters. *)
Definition lower_char (c : ascii) : ascii :=
  let n := N_of_ascii c in
  if ((65 <=? n) && (n <=? 90))%N then ascii_of_N (n + 32) else c.

Fixpoint toLowerCase (s : string) : string :=
  match s with
  | String c r => String (lower_char c) (toLowerCase r)
  | EmptyString => EmptyString
  end.

(** The global replacement of the snapshot's CSV branch: every double
    quote of [s] becomes two. *)
Fixpoint replace_quotes (s : string) : string :=
  match s with
  | String c r =>
      if Ascii.eqb c dquote then String dquote (String dquote (replace_quotes r))
      else String c (replace_quotes r)
  | EmptyString => EmptyString
  end.

(** *** Reading numerals *)

Definition digit_val (radix : N) (c : ascii) : option N :=
  let n := N_of_ascii c in
  let d :=
    if ((48 <=? n) && (n <=? 57))%N then Some (n - 48)%N
    else if ((97 <=? n) && (n <=? 102))%N then Some (n - 87)%N
    else if ((65 <=? n) && (n <=? 70))%N then Some (n - 55)%N
    else None in
  match d with
  | Some v => if (v <? radix)%N then Some v else None
  | None => None
  end.

(** The longest prefix of digits: its value on top of [acc], the number of
    digits read on top of [k], and what follows. *)
Fixpoint scan_digits (radix : N) (s : string) (acc : N) (k : nat)
  : N * nat * string :=
  match s with
  | String c r =>
      match digit_val radix c with
      | Some d => scan_digits radix r (radix * acc + d)%N (S k)
      | None => (acc, k, s)
      end
  | EmptyString => (acc, k, s)
  end.

(** An optional exponent part (an exponent mark, a sign, digits); [None]
    when an exponent mark is followed by no digit. *)
Definition scan_exponent (s : string) : option (Z * string) :=
  match s with
  | String c r =>
      if (Ascii.eqb c "e" || Ascii.eqb c "E")%bool then
        let '(neg, r1) :=
          match r with
          | String "-" r' => (true, r')
          | String "+" r' => (false, r')
          | _ => (false, r)
          end in
        let '(e, k, r2) := scan_digits 10 r1 0%N 0%nat in
        match k with
        | O => None
        | _ => Some (if neg then - Z.of_N e else Z.of_N e, r2)
        end
      else Some (0, s)
  | EmptyString => Some (0, s)
  end.

(** An unsigned decimal literal ([StrUnsignedDecimalLiteral]). *)
Definition parse_unsigned (s : string) : num :=
  if String.eqb s "Infinity" then PosInf
  else
    let '(i, ki, r1) := scan_digits 10 s 0%N 0%nat in
    let '(f, kf, r2) :=
      match r1 with
      | String "." r => scan_digits 10 r 0%N 0%nat
      | _ => (0%N, 0%nat, r1)
      end in
    match (ki + kf)%nat, scan_exponent r2 with
    | S _, Some (e, EmptyString) =>
        Fin (Qred ((inject_Z (Z.of_N i)
                    + inject_Z (Z.of_N f) / inject_Z (10 ^ Z.of_nat kf))
                   * Qpower (inject_Z 10) e))
    | _, _ => NaN
    end.

(** The radix a letter after a leading zero announces. *)
Definition radix_mark (c : ascii) : option N :=
  if (Ascii.eqb c "x" || Ascii.eqb c "X")%bool then Some 16%N
  else if (Ascii.eqb c "o" || Ascii.eqb c "O")%bool then Some 8%N
  else if (Ascii.eqb c "b" || Ascii.eqb c "B")%bool then Some 2%N
  else None.

(** A binary, octal or hexadecimal integer literal ([0b..], [0o..], [0x..]). *)
Definition parse_nondecimal (s : string) : option num :=
  match s with
  | String "0" (String c r) =>
      match radix_mark c with
      | Some b =>
          match scan_digits b r 0%N 0%nat with
          | (v, S _, EmptyString) => Some (Fin (inject_Z (Z.of_N v)))
          | _ => Some NaN
          end
      | None => None
      end
  | _ => None
  end.

(** [StringToNumber]: the Number a string converts to. *)
Definition StringToNumber (s : string) : num :=
  let t := trim s in
  match t with
  | EmptyString => Fin 0
  | String "+" r => parse_unsigned r
  | String "-" r => num_neg (parse_unsigned r)
  | _ =>
      match parse_nondecimal t with
      | Some n => n
      | None => parse_unsigned t
      end
  end.

(** [parseInt(s, 10)] of a string. *)
Definition parseInt10 (s : string) : num :=
  let t := trimStart s in
  let '(neg, r) :=
    match t with
    | String "-" r' => (true, r')
    | String "+" r' => (false, r')
    | _ => (false, t)
    end in
  match scan_digits 10 r 0%N 0%nat with
  | (_, O, _) => NaN
  | (v, _, _) => Fin (inject_Z (if neg then - Z.of_N v else Z.of_N v))
  end.

(** *** Writing numerals *)

Definition digit_char (d : N) : ascii := ascii_of_N (48 + d).

(** The decimal digits of a natural number. *)
Definition decimal (n : N) : string := NilEmpty.string_of_uint (N.to_uint n).

(** [toFixed(2)] of a non-negative number below 10^21: the nearest number
    of hundredths (a tie going up), written with two fraction digits. *)
Definition fixed2_digits (q : Q) : string :=
  let n := Z.to_N (Qfloor (q * 100 + (1 # 2))) in
  decimal (n / 100)
  ++ String "." (String (digit_char ((n mod 100) / 10))
                   (String (digit_char (n mod 10)) EmptyString)).

(** ** Values and their conversions *)

Inductive value : Type :=
| Undefined
| Null
| Bool (b : bool)
| Num (n : num)
| Str (s : string).

Definition nullish (v : value) : bool :=
  match v with Undefined | Null => true | _ => false end.

(** [a ?? b]. *)
Definition coalesce (a b : value) : value := if nullish a then b else a.

(** [ToBoolean]. *)
Definition truthy (v : value) : bool :=
  match v with
  | Undefined | Null => false
  | Bool b => b
  | Num NaN => false
  | Num (Fin q) => negb (Qeq_bool q 0)
  | Num _ => true
  | Str EmptyString => false
  | Str _ => true
  end.

(** [a || b]. *)
Definition or_else (a b : value) : value := if truthy a then a else b.

(** [ToNumber], which is also [Number(v)] on a primitive. *)
Definition ToNumber (v : value) : num :=
  match v with
  | Undefined => NaN
  | Null => Fin 0
  | Bool true => Fin 1
  | Bool false => Fin 0
  | Num n => n
  | Str s => StringToNumber s
  end.

(** [typeof v === 'number']. *)
Definition is_number (v : value) : bool :=
  match v with Num _ => true | _ => false end.

(** [typeof v === 'string']. *)
Definition is_string (v : value) : bool :=
  match v with Str _ => true | _ => false end.

(** A field read through [?.] on an object that may be null. *)
Definition opt_field {A : Type} (o : option A) (f : A -> value) : value :=
  match o with Some a => f a | None => Undefined end.

(** The runtime's text of a finite Number. *)
Class Runtime : Type := { NumberToString : Q -> string }.

Section Printing.
Context {rt : Runtime}.

(** [ToString], as a template literal applies it. *)
Definition ToString (v : value) : string :=
  match v with
  | Undefined => "undefined"
  | Null => "null"
  | Bool true => "true"
  | Bool false => "false"
  | Num NaN => "NaN"
  | Num PosInf => "Infinity"
  | Num NegInf => "-Infinity"
  | Num (Fin q) => NumberToString q
  | Str s => s
  end.

(** [Number.prototype.toFixed(2)]. *)
Definition toFixed2 (x : num) : string :=
  match x with
  | NaN => "NaN"
  | PosInf => "Infinity"
  | NegInf => "-Infinity"
  | Fin q =>
      let s := match (q ?= 0)%Q with Lt => "-" | _ => "" end in
      let a := Qabs q in
      let m := if Qle_bool (inject_Z (10 ^ 21)) a then NumberToString a
               else fixed2_digits a in
      s ++ m
  end.

(** [x?.toFixed?.(2)]: only a Number has the method. *)
Definition opt_toFixed2 (x : value) : value :=
  match x with Num n => Str (toFixed2 n) | _ => Undefined end.

(** [x.toFixed(2)]: a TypeError ([None]) on anything but a Number. *)
Definition call_toFixed2 (x : value) : option value :=
  match x with Num n => Some (Str (toFixed2 n)) | _ => None end.

End Printing.

(** ** Sorting

    [Array.prototype.sort] with a comparator, as a stable insertion sort:
    [x] moves behind [y] only when the comparator's result on [(x, y)] is
    positive, and a NaN result counts as zero ([SortCompare]). *)

Definition cmp_sign (v : num) : comparison :=
  match v with
  | NaN => Eq
  | PosInf => Gt
  | NegInf => Lt
  | Fin q => (q ?= 0)%Q
  end.

Fixpoint sort_insert {A : Type} (cmp : A -> A -> num) (x : A) (l : list A)
  : list A :=
  match l with
  | [] => [x]
  | y :: r =>
      match cmp_sign (cmp x y) with
      | Gt => y :: sort_insert cmp x r
      | _ => x :: l
      end
  end.

Definition array_sort {A : Type} (cmp : A -> A -> num) (l : list A) : list A :=
  fold_right (sort_insert cmp) [] l.

(** [a.slice(0, k)]. *)
Definition slice0 {A : Type} (k : nat) (l : list A) : list A := firstn k l.

(** [ToIntegerOrInfinity] followed by the clamping of a relative start
    index of [slice]: the number of leading elements left out. *)
Definition slice_start (rel : num) (len : nat) : nat :=
  match rel with
  | NaN => 0%nat
  | PosInf => len
  | NegInf => 0%nat
  | Fin q =>
      let i := Z.quot (Qnum q) (Zpos (Qden q)) in
      if (i <? 0)%Z then Z.to_nat (Z.max (Z.of_nat len + i) 0)
      else Z.to_nat (Z.min i (Z.of_nat len))
  end.

(** [a.slice(start)]. *)
Definition slice_from {A : Type} (rel : num) (l : list A) : list A :=
  skipn (slice_start rel (List.length l)) l.

(** ** Sensor readings (the [systeminformation] module) *)

Record CurrentLoad : Type := { currentLoad : value }.

Record Mem : Type := { m_total : value; m_used : value; m_active : value }.

Record Battery : Type :=
  { hasbattery : value; percent : value; ischarging : value; maxcapacity : value }.

Record PowerSupply : Type := { ps_percent : value }.

Record FsSize : Type :=
  { d_fs : value; d_mount : value; d_size : value; d_used : value; d_use : value }.

Record Controller : Type :=
  { g_model : value; g_vendor : value; g_vram : value; g_utilizationGpu : value }.

Record Graphics : Type := { controllers : option (list Controller) }.

Record Process : Type :=
  { p_pid : value; p_name : value; p_command : value;
    p_pcpu : value; p_cpu : value; p_cpuPercent : value; p_cpuUsage : value;
    p_pmem : value; p_mem : value; p_memPercent : value }.

Record Processes : Type := { list_ : option (list Process) }.

(** ** Shared state *)

Record Thresholds : Type := { t_cpu : value; t_ram : value; t_battery : value }.

(** [let thresholds = { cpu: 90, ram: 85, battery: 15 }]. *)
Definition thresholds_init : Thresholds :=
  {| t_cpu := Num (Fin 90); t_ram := Num (Fin 85); t_battery := Num (Fin 15) |}.

(** The log file: [None] until something was appended. *)
Definition LogFile : Type := option string.

(** [appendLogAsync(line)]: the line and a line feed at the end of the file. *)
Definition appendLogAsync (line : string) (f : LogFile) : LogFile :=
  Some (match f with Some c => c | None => EmptyString end
        ++ line ++ String newline EmptyString).

(** ** Requests and responses *)

(** What an awaited promise settles to. *)
Inductive outcome (A : Type) : Type :=
| Resolved (a : A)
| Rejected.
Arguments Resolved {A} a.
Arguments Rejected {A}.

(** [res.json(a)], or the handler's [catch]: status 500. *)
Inductive response (A : Type) : Type :=
| Json (a : A)
| Status500.
Arguments Json {A} a.
Arguments Status500 {A}.

(** One PDFKit call on the document of a snapshot. *)
Inductive doc_op : Type :=
| DocText (s : string)
| DocMoveDown.

(** The three ways GET /api/snapshot ends. *)
Inductive snapshot_response : Type :=
| PdfAttachment (doc : list doc_op)
| CsvAttachment (csv : string)
| SnapshotError.

(** An entry of the reply of GET /api/processes. *)
Record ProcessSample : Type :=
  { pid : value; name : value; s_cpu : value; s_mem : value }.

(** [procInfo?.list || []]. *)
Definition process_list (procInfo : option Processes) : list Process :=
  match procInfo with
  | Some pi => match list_ pi with Some l => l | None => [] end
  | None => []
  end.

(** [req.query.x || d] for a query parameter that is a string when present. *)
Definition query_or (q : option string) (d : string) : string :=
  match q with
  | Some (String c s) => String c s
  | _ => d
  end.

(** The JSON body of POST /api/thresholds; a field left out is [Undefined]. *)
Record ThresholdsBody : Type := { b_cpu : value; b_ram : value; b_battery : value }.

(** ** The server of [script.js], lines 500-686 (the robust version) *)

Module Robust.

Record Stats : Type :=
  { cpu : value; ram : value; battery : value;
    ssd : list FsSize; gpu : list Controller }.

(** The readings one GET /api/stats awaits. *)
Record StatsPoll : Type :=
  { sp_cpuLoad : CurrentLoad; sp_mem : option Mem; sp_battery : option Battery;
    sp_fsSize : option (list FsSize); sp_graphics : option Graphics }.

(** The readings one tick of the logger awaits. *)
Record CronPoll : Type :=
  { cp_cpu : CurrentLoad; cp_mem : option Mem; cp_battery : option Battery }.

(** The readings one GET /api/snapshot awaits. *)
Record SnapshotPoll : Type :=
  { np_stats : CurrentLoad; np_mem : option Mem; np_battery : option Battery;
    np_procs : option Processes }.

(** [safeNum]. *)
Definition safeNum (v : value) : num :=
  if nullish v then Fin 0
  else let n := ToNumber v in if isFinite n then n else Fin 0.

(** The callback of [list.map] in GET /api/processes. *)
Definition mapped_entry (p : Process) : ProcessSample :=
  let cpuRaw :=
    coalesce (coalesce (coalesce (coalesce (p_pcpu p) (p_cpu p)) (p_cpuPercent p))
                (p_cpuUsage p)) (Num (Fin 0)) in
  let memRaw :=
    coalesce (coalesce (coalesce (p_pmem p) (p_mem p)) (p_memPercent p))
      (Num (Fin 0)) in
  let cpu := ToNumber (Num (safeNum cpuRaw)) in
  let memv := ToNumber (Num (safeNum memRaw)) in
  {| pid := coalesce (p_pid p) Null;
     name := coalesce (coalesce (p_name p) (p_command p)) (Str "unknown");
     s_cpu := Num (num_div (Math_round (num_mul cpu (Fin 100))) (Fin 100));
     s_mem := Num (num_div (Math_round (num_mul memv (Fin 100))) (Fin 100)) |}.

(** The comparator [(a,b) => (b.cpu ?? 0) - (a.cpu ?? 0)]. *)
Definition by_cpu_desc (a b : ProcessSample) : num :=
  num_sub (ToNumber (coalesce (s_cpu b) (Num (Fin 0))))
          (ToNumber (coalesce (s_cpu a) (Num (Fin 0)))).

(** GET /api/processes. *)
Definition api_processes (r : outcome (option Processes))
  : response (list ProcessSample) :=
  match r with
  | Resolved procInfo =>
      let list := process_list procInfo in
      let mapped := map mapped_entry list in
      let top := slice0 5 (array_sort by_cpu_desc mapped) in
      Json top
  | Rejected => Status500
  end.

(** GET /api/logs, on the log file and the query parameter [n]. *)
Definition api_logs (file : LogFile) (query_n : option string)
  : response (list string) :=
  match file with
  | None => Json []
  | Some content =>
      let n :=
        or_else
          (Num (parseInt10 (match query_n with Some s => s | None => "undefined" end)))
          (Num (Fin 200)) in
      let all := split_lines (trim content) in
      Json (slice_from (num_neg (ToNumber n)) all)
  end.

(** POST /api/thresholds: the new state and the thresholds of the reply
    [{ success: true, thresholds }]. *)
Definition post_thresholds (thresholds : Thresholds) (body : option ThresholdsBody)
  : Thresholds * response Thresholds :=
  let b := match body with
           | Some b => b
           | None => {| b_cpu := Undefined; b_ram := Undefined; b_battery := Undefined |}
           end in
  let t1 := if is_number (b_cpu b)
            then {| t_cpu := b_cpu b; t_ram := t_ram thresholds;
                    t_battery := t_battery thresholds |}
            else thresholds in
  let t2 := if is_number (b_ram b)
            then {| t_cpu := t_cpu t1; t_ram := b_ram b; t_battery := t_battery t1 |}
            else t1 in
  let t3 := if is_number (b_battery b)
            then {| t_cpu := t_cpu t2; t_ram := t_ram t2; t_battery := b_battery b |}
            else t2 in
  (t3, Json t3).

(** GET /api/thresholds. *)
Definition get_thresholds (thresholds : Thresholds) : response Thresholds :=
  Json thresholds.

(** The comparator of the snapshot's process list. *)
Definition by_raw_cpu_desc (a b : Process) : num :=
  num_sub (ToNumber (coalesce (coalesce (p_pcpu b) (p_cpu b)) (Num (Fin 0))))
          (ToNumber (coalesce (coalesce (p_pcpu a) (p_cpu a)) (Num (Fin 0)))).

Section WithRuntime.
Context {rt : Runtime}.

(** GET /api/stats. *)
Definition api_stats (r : outcome StatsPoll) : response Stats :=
  match r with
  | Resolved poll =>
      let cpuLoad := sp_cpuLoad poll in
      let mem := sp_mem poll in
      let battery := sp_battery poll in
      let cpu :=
        Num (ToNumber (coalesce (coalesce (opt_toFixed2 (currentLoad cpuLoad))
                                   (currentLoad cpuLoad)) (Num (Fin 0)))) in
      let ram :=
        Num (ToNumber (Str (toFixed2
          (num_mul (num_div (ToNumber (coalesce (opt_field mem m_active) (Num (Fin 0))))
                            (ToNumber (coalesce (opt_field mem m_total) (Num (Fin 1)))))
                   (Fin 100))))) in
      let batteryPct :=
        if truthy (opt_field battery hasbattery)
        then coalesce (opt_field battery percent) Null
        else Null in
      let ssd :=
        map (fun d => {| d_fs := d_fs d; d_mount := d_mount d; d_size := d_size d;
                         d_used := d_used d; d_use := d_use d |})
            (match sp_fsSize poll with Some l => l | None => [] end) in
      let gpu :=
        map (fun g => {| g_model := or_else (g_model g) (Str "unknown");
                         g_vendor := or_else (g_vendor g) (Str "");
                         g_vram := or_else (g_vram g) (Num (Fin 0));
                         g_utilizationGpu := coalesce (g_utilizationGpu g) Null |})
            (match sp_graphics poll with
             | Some gr => match controllers gr with Some l => l | None => [] end
             | None => []
             end) in
      Json {| cpu := cpu; ram := ram; battery := batteryPct; ssd := ssd; gpu := gpu |}
  | Rejected => Status500
  end.

(** The three values a tick of the logger prints. *)
Definition cron_values (poll : CronPoll) : value * value * value :=
  let cpu := cp_cpu poll in
  let mem := cp_mem poll in
  let battery := cp_battery poll in
  let cpuVal :=
    Num (ToNumber (coalesce (coalesce (opt_toFixed2 (currentLoad cpu))
                               (currentLoad cpu)) (Num (Fin 0)))) in
  let ramVal :=
    Num (ToNumber (Str (toFixed2
      (num_mul (num_div (ToNumber (coalesce (opt_field mem m_active) (Num (Fin 0))))
                        (ToNumber (coalesce (opt_field mem m_total) (Num (Fin 1)))))
               (Fin 100))))) in
  let battVal :=
    if truthy (opt_field battery hasbattery)
    then coalesce (opt_field battery percent) (Str "N/A")
    else Str "N/A" in
  (cpuVal, ramVal, battVal).

(** The callback of [cron.schedule('* * * * *', ...)]: one tick at local
    time [now], on the log file. *)
Definition cron_tick (now : string) (r : outcome CronPoll) (f : LogFile) : LogFile :=
  match r with
  | Resolved poll =>
      let '(cpuVal, ramVal, battVal) := cron_values poll in
      let line :=
        "[" ++ now ++ "] CPU:" ++ ToString cpuVal ++ "% RAM:" ++ ToString ramVal
        ++ "% Battery:" ++ ToString battVal in
      appendLogAsync line f
  | Rejected => f
  end.

(** One row of the snapshot's process table; [None] is the TypeError of
    calling [replace] on a name that is neither falsy nor a string. *)
Definition csv_row (p : Process) : option string :=
  let cpu := coalesce (coalesce (p_pcpu p) (p_cpu p)) (Num (Fin 0)) in
  let memv := coalesce (coalesce (p_pmem p) (p_mem p)) (Num (Fin 0)) in
  match or_else (p_name p) (Str "") with
  | Str nm =>
      Some (ToString (p_pid p) ++ "," ++ String dquote (replace_quotes nm)
            ++ String dquote ("," ++ ToString cpu ++ "," ++ ToString memv
                              ++ String newline ""))
  | _ => None
  end.

(** [topProcs.forEach(p => { csv += ... })]. *)
Fixpoint csv_rows (ps : list Process) (csv : string) : option string :=
  match ps with
  | [] => Some csv
  | p :: r =>
      match csv_row p with
      | Some row => csv_rows r (csv ++ row)
      | None => None
      end
  end.

(** One line of the document's process list. *)
Definition pdf_row (p : Process) : doc_op :=
  DocText (ToString (p_pid p) ++ " " ++ ToString (p_name p) ++ " — CPU:"
           ++ ToString (coalesce (coalesce (p_pcpu p) (p_cpu p)) (Num (Fin 0)))
           ++ "% MEM:"
           ++ ToString (coalesce (coalesce (p_pmem p) (p_mem p)) (Num (Fin 0)))
           ++ "%").

(** The values GET /api/snapshot computes before it writes either format. *)
Definition snapshot_values (poll : SnapshotPoll)
  : value * value * value * list Process :=
  let stats := np_stats poll in
  let mem := np_mem poll in
  let battery := np_battery poll in
  let cpuVal :=
    Num (ToNumber (coalesce (coalesce (opt_toFixed2 (currentLoad stats))
                               (currentLoad stats)) (Num (Fin 0)))) in
  let ramVal :=
    Num (ToNumber (Str (toFixed2
      (num_mul (num_div (ToNumber (coalesce (opt_field mem m_active) (Num (Fin 0))))
                        (ToNumber (coalesce (opt_field mem m_total) (Num (Fin 1)))))
               (Fin 100))))) in
  let batteryVal :=
    if truthy (opt_field battery hasbattery)
    then coalesce (opt_field battery percent) (Str "N/A")
    else Str "N/A" in
  let topProcs :=
    slice0 10 (array_sort by_raw_cpu_desc (process_list (np_procs poll))) in
  (cpuVal, ramVal, batteryVal, topProcs).

(** The document branch. *)
Definition snapshot_pdf (time : string) (poll : SnapshotPoll) : snapshot_response :=
  let '(cpuVal, ramVal, batteryVal, topProcs) := snapshot_values poll in
  PdfAttachment
    ([DocText "OS Dashboard Snapshot"; DocMoveDown;
      DocText ("Time: " ++ time);
      DocText ("CPU: " ++ ToString cpuVal ++ "%");
      DocText ("RAM: " ++ ToString ramVal ++ "%");
      DocText ("Battery: " ++ ToString batteryVal);
      DocMoveDown;
      DocText "Top processes (sample):"]
     ++ map pdf_row topProcs)%list.

(** The text of the CSV branch before the process rows. *)
Definition csv_head (time : string) (cpuVal ramVal batteryVal : value) : string :=
  let csv := "time,cpu%,ram%,battery%" ++ String newline "" in
  let csv := csv ++ time ++ "," ++ ToString cpuVal ++ "," ++ ToString ramVal
             ++ "," ++ ToString batteryVal ++ String newline (String newline "") in
  csv ++ "pid,name,cpu,mem" ++ String newline "".

(** The CSV branch. *)
Definition snapshot_csv (time : string) (poll : SnapshotPoll) : snapshot_response :=
  let '(cpuVal, ramVal, batteryVal, topProcs) := snapshot_values poll in
  match csv_rows topProcs (csv_head time cpuVal ramVal batteryVal) with
  | Some csv => CsvAttachment csv
  | None => SnapshotError
  end.

(** GET /api/snapshot, on the query parameter [fmt] and the time stamp. *)
Definition api_snapshot (query_fmt : option string) (time : string)
  (r : outcome SnapshotPoll) : snapshot_response :=
  let fmt := toLowerCase (query_or query_fmt "csv") in
  match r with
  | Resolved poll =>
      if String.eqb fmt "pdf" then snapshot_pdf time poll
      else snapshot_csv time poll
  | Rejected => SnapshotError
  end.

End WithRuntime.

End Robust.

(** ** The server of [script.js], lines 301-498 (power-supply fallback) *)

Module Fallback.

(** [getBatteryInfo]: the primary battery query, then the power-supply
    query, then [null]; a rejected query ends in the [catch]. *)
Definition getBatteryInfo (battery : outcome (option Battery))
  (powerSupply : outcome (option PowerSupply)) : value :=
  match battery with
  | Resolved battery =>
      if match battery with
         | Some b =>
             (truthy (hasbattery b)
              || num_gt (ToNumber (percent b)) (Fin 0)
              || num_gt (ToNumber (maxcapacity b)) (Fin 0))%bool
         | None => false
         end
      then coalesce (opt_field battery percent) Null
      else
        match powerSupply with
        | Resolved ps =>
            if truthy (opt_field ps ps_percent) then opt_field ps ps_percent
            else Null
        | Rejected => Null
        end
  | Rejected => Null
  end.

Section WithRuntime.
Context {rt : Runtime}.

(** The callback of [list.map] in this version's GET /api/processes. *)
Definition mapped_entry (p : Process) : ProcessSample :=
  {| pid := coalesce (p_pid p) Null;
     name := coalesce (coalesce (p_name p) (p_command p)) (Str "unknown");
     s_cpu := Str (toFixed2 (ToNumber (coalesce (coalesce (p_pcpu p) (p_cpu p))
                                         (Num (Fin 0)))));
     s_mem := Str (toFixed2 (ToNumber (coalesce (coalesce (p_pmem p) (p_mem p))
                                         (Num (Fin 0))))) |}.

(** The comparator [(a, b) => b.cpu - a.cpu]. *)
Definition by_cpu_desc (a b : ProcessSample) : num :=
  num_sub (ToNumber (s_cpu b)) (ToNumber (s_cpu a)).

(** GET /api/processes. *)
Definition api_processes (r : outcome (option Processes))
  : response (list ProcessSample) :=
  match r with
  | Resolved procInfo =>
      let list := process_list procInfo in
      let mapped := map mapped_entry list in
      let top := slice0 5 (array_sort by_cpu_desc mapped) in
      Json top
  | Rejected => Status500
  end.

End WithRuntime.

End Fallback.

(** ** [src/server.cjs] *)

Module ServerCjs.

Record BatteryInfo : Type := { bi_percent : value; isCharging : value }.

Record SystemInfo : Type :=
  { cpu : value; memory : value; battery : value; charging : value }.

(** [getBatteryInfo]. *)
Definition getBatteryInfo (battery : outcome (option Battery)) : BatteryInfo :=
  match battery with
  | Resolved (Some b) =>
      if truthy (hasbattery b)
      then {| bi_percent := coalesce (percent b) (Str "N/A");
              isCharging := coalesce (ischarging b) (Bool false) |}
      else {| bi_percent := Str "N/A"; isCharging := Bool false |}
  | Resolved None => {| bi_percent := Str "N/A"; isCharging := Bool false |}
  | Rejected => {| bi_percent := Str "N/A"; isCharging := Bool false |}
  end.

(** What the [catch] of [getSystemInfo] returns. *)
Definition info_unavailable : SystemInfo :=
  {| cpu := Str "N/A"; memory := Str "N/A"; battery := Str "N/A";
     charging := Undefined |}.

Section WithRuntime.
Context {rt : Runtime}.

(** The body of [getSystemInfo] once the three promises are settled, for a
    battery reading already turned into a [BatteryInfo]. *)
Definition system_info (cpu : outcome CurrentLoad) (mem : outcome (option Mem))
  (battery : BatteryInfo) : SystemInfo :=
  match cpu, mem with
  | Resolved cpu, Resolved (Some mem) =>
      match call_toFixed2 (currentLoad cpu) with
      | Some cpuLoad =>
          let memUsage :=
            Str (toFixed2 (num_mul (num_div (ToNumber (m_used mem))
                                            (ToNumber (m_total mem))) (Fin 100))) in
          {| cpu := cpuLoad; memory := memUsage;
             battery := bi_percent battery; charging := isCharging battery |}
      | None => info_unavailable
      end
  | _, _ => info_unavailable
  end.

(** [getSystemInfo]. *)
Definition getSystemInfo (cpu : outcome CurrentLoad) (mem : outcome (option Mem))
  (battery : outcome (option Battery)) : SystemInfo :=
  system_info cpu mem (getBatteryInfo battery).

(** GET /api/resource. *)
Definition api_resource (cpu : outcome CurrentLoad) (mem : outcome (option Mem))
  (battery : outcome (option Battery)) : response SystemInfo :=
  Json (getSystemInfo cpu mem battery).

(** An entry of the JSON log: [{ timestamp, ...info }]. *)
Record LogEntry : Type := { timestamp : string; info : SystemInfo }.

(** The JSON log file: missing, unreadable as JSON, or an array of entries. *)
Inductive JsonLog : Type :=
| NoFile
| NotJson
| Entries (logs : list LogEntry).

(** The callback of [cron.schedule('*/5 * * * *', ...)]. *)
Definition cron_tick (timestamp : string) (cpu : outcome CurrentLoad)
  (mem : outcome (option Mem)) (battery : outcome (option Battery))
  (file : JsonLog) : JsonLog :=
  let info := getSystemInfo cpu mem battery in
  let logEntry := {| timestamp := timestamp; info := info |} in
  let logs := match file with Entries l => l | _ => [] end in
  Entries (logs ++ [logEntry])%list.

End WithRuntime.

End ServerCjs.

(** ** The server of [script.js], lines 141-298 (mock battery) *)

Module Mock.

(** [Math.floor(Math.random() * (100 - 60 + 1)) + 60] for the draw [r]. *)
Definition mock_percent (r : Q) : value :=
  Num (num_add
         (Math_floor
            (num_mul (Fin r) (num_add (num_sub (Fin 100) (Fin 60)) (Fin 1))))
         (Fin 60)).

(** [getBatteryInfo], on the two draws of [Math.random()] it may make. *)
Definition getBatteryInfo (battery : outcome (option Battery)) (r1 r2 : Q)
  : ServerCjs.BatteryInfo :=
  match battery with
  | Resolved (Some b) =>
      if truthy (hasbattery b)
      then {| ServerCjs.bi_percent := coalesce (percent b) (Str "N/A");
              ServerCjs.isCharging := coalesce (ischarging b) (Bool false) |}
      else {| ServerCjs.bi_percent := mock_percent r1;
              ServerCjs.isCharging := Bool (num_gt (Fin r2) (Fin (1 # 2))) |}
  | _ => {| ServerCjs.bi_percent := mock_percent r1;
            ServerCjs.isCharging := Bool (num_gt (Fin r2) (Fin (1 # 2))) |}
  end.

Section WithRuntime.
Context {rt : Runtime}.

(** [getSystemInfo]: the text of [server.cjs], over this version's battery. *)
Definition getSystemInfo (cpu : outcome CurrentLoad) (mem : outcome (option Mem))
  (battery : outcome (option Battery)) (r1 r2 : Q) : ServerCjs.SystemInfo :=
  ServerCjs.system_info cpu mem (getBatteryInfo battery r1 r2).

(** The cpu, ram and battery fields of this version's GET /api/stats. *)
Definition stats_values (cpuLoad : CurrentLoad) (mem : option Mem)
  (battery : option Battery) (r : Q) : value * value * value :=
  let cpu :=
    Num (ToNumber (coalesce (coalesce (opt_toFixed2 (currentLoad cpuLoad))
                               (currentLoad cpuLoad)) (Num (Fin 0)))) in
  let ram :=
    Num (ToNumber (Str (toFixed2
      (num_mul (num_div (ToNumber (coalesce (opt_field mem m_active) (Num (Fin 0))))
                        (ToNumber (coalesce (opt_field mem m_total) (Num (Fin 1)))))
               (Fin 100))))) in
  let batteryPct :=
    if (truthy (opt_field battery hasbattery)
        && is_number (opt_field battery percent))%bool
    then opt_field battery percent
    else mock_percent r in
  (cpu, ram, batteryPct).

End WithRuntime.

End Mock.

(** ** A runtime for closed examples

    It writes a finite Number to the nearest hundredth without trailing
    zeros, which is what [Number::toString] gives on the multiples of 1/100
    of magnitude below 10^21: integers, and every value the handlers obtain
    from [Number(x.toFixed(2))]. *)

Definition hundredths_text (q : Q) : string :=
  let s := match (q ?= 0)%Q with Lt => "-" | _ => "" end in
  let n := Z.to_N (Qfloor (Qabs q * 100 + (1 # 2))) in
  let f1 := ((n mod 100) / 10)%N in
  let f2 := (n mod 10)%N in
  s ++ decimal (n / 100)
    ++ (if (f2 =? 0)%N
        then if (f1 =? 0)%N then "" else String "." (String (digit_char f1) "")
        else String "." (String (digit_char f1) (String (digit_char f2) ""))).

Definition hundredths_runtime : Runtime := {| NumberToString := hundredths_text |}.

(** ** What the claims speak of *)

(** A percentage: a finite Number between 0 and 100. *)
Definition is_percentage (v : value) : Prop :=
  exists q : Q, v = Num (Fin q) /\ (0 <= q <= 100)%Q.

(** The battery of a reading, as the robust handlers and [server.cjs] take
    it: the battery is reported present and [v] is its percent field, which
    is there. *)
Definition reported_percent (battery : option Battery) (v : value) : Prop :=
  exists b : Battery,
    battery = Some b /\ truthy (hasbattery b) = true
    /\ nullish (percent b) = false /\ v = percent b.

(** The battery field as the specification wants it: an absent marker
    ([null] or [undefined]) or a percentage. *)
Definition absent_or_percentage (v : value) : Prop :=
  v = Null \/ v = Undefined \/ is_percentage v.

(** The primary sensor signals a battery, in the specification's words:
    reported present, or a non-zero percent, or a non-zero capacity. *)
Definition primary_signals (b : Battery) : Prop :=
  truthy (hasbattery b) = true
  \/ truthy (percent b) = true
  \/ truthy (maxcapacity b) = true.

(** The primary sensor signals a battery, as [Fallback.getBatteryInfo]
    tests it. *)
Definition primary_present (battery : outcome (option Battery)) (b : Battery) : Prop :=
  battery = Resolved (Some b)
  /\ (truthy (hasbattery b) = true
      \/ num_gt (ToNumber (percent b)) (Fin 0) = true
      \/ num_gt (ToNumber (maxcapacity b)) (Fin 0) = true).

(** The secondary sensor gives a percent, as [Fallback.getBatteryInfo]
    tests it. *)
Definition secondary_percent (powerSupply : outcome (option PowerSupply))
  (v : value) : Prop :=
  exists ps : PowerSupply,
    powerSupply = Resolved (Some ps) /\ truthy (ps_percent ps) = true
    /\ v = ps_percent ps.

(** Descending order of a rational key: the earlier entry has the larger
    or an equal key. *)
Definition key_ge {A : Type} (key : A -> Q) (a b : A) : Prop :=
  (key b <= key a)%Q.

(** The cpu of an entry of the reply of GET /api/processes. *)
Definition cpu_key (e : ProcessSample) : Q :=
  match s_cpu e with Num (Fin q) => q | _ => 0%Q end.

Definition finite_cpu (e : ProcessSample) : Prop :=
  exists q : Q, s_cpu e = Num (Fin q).

(** [a.cpu >= b.cpu] on two entries whose cpu is a finite Number. *)
Definition cpu_ge (a b : ProcessSample) : Prop :=
  exists qa qb : Q,
    s_cpu a = Num (Fin qa) /\ s_cpu b = Num (Fin qb) /\ (qb <= qa)%Q.

(** The entries whose cpu equals [c]. *)
Definition has_cpu (c : Q) (e : ProcessSample) : bool :=
  Qeq_bool (cpu_key e) c.

(** A finite Number of at most two decimals: a whole number of hundredths. *)
Definition two_decimals (v : value) : Prop :=
  exists z : Z, v = Num (Fin (Qred (inject_Z z / 100))).

(** The cpu and memory fields GET /api/processes reads from a raw entry:
    the first of the alternatives that is neither null nor undefined. *)
Definition cpu_field (p : Process) : value :=
  coalesce (coalesce (coalesce (p_pcpu p) (p_cpu p)) (p_cpuPercent p)) (p_cpuUsage p).

Definition mem_field (p : Process) : value :=
  coalesce (coalesce (p_pmem p) (p_mem p)) (p_memPercent p).

(** A field that is missing, or that does not convert to a finite Number. *)
Definition missing_or_non_numeric (v : value) : Prop :=
  nullish v = true \/ isFinite (ToNumber v) = false.

(** ** Readings used in the closed examples *)

(** A machine without a battery, as the sensor reports it. *)
Definition no_battery : Battery :=
  {| hasbattery := Bool false; percent := Num (Fin 0);
     ischarging := Bool false; maxcapacity := Num (Fin 0) |}.

(** A battery reported present whose percent field is left out. *)
Definition battery_without_percent : Battery :=
  {| hasbattery := Bool true; percent := Undefined;
     ischarging := Bool false; maxcapacity := Num (Fin 0) |}.

(** A battery not reported present, with a percent all the same. *)
Definition unflagged_battery : Battery :=
  {| hasbattery := Bool false; percent := Num (Fin 50);
     ischarging := Bool false; maxcapacity := Num (Fin 0) |}.

(** Half of the memory in use, a quarter of it active. *)
Definition mem_half_used : Mem :=
  {| m_total := Num (Fin 100); m_used := Num (Fin 50); m_active := Num (Fin 25) |}.

Definition load_12 : CurrentLoad := {| currentLoad := Num (Fin (25 # 2)) |}.

(** ** Valid readings *)

(** A load the sensor reports as a percentage, and a memory reading whose
    active part is a finite fraction of a positive total. *)
Definition valid_load (cl : CurrentLoad) : Prop := is_percentage (currentLoad cl).

Definition valid_mem (mem : option Mem) : Prop :=
  exists (m : Mem) (a t : Q),
    mem = Some m /\ m_active m = Num (Fin a) /\ m_total m = Num (Fin t)
    /\ (0 <= a)%Q /\ (a <= t)%Q /\ (0 < t)%Q.

(** A finite number rounded to hundredths, a tie going up. *)
Definition round2 (q : Q) : Q :=
  Qred (inject_Z (Qfloor (q * 100 + (1 # 2))) / 100).

(** ** CSV quoting, in the specification's words *)

(** The text of a process name in the export: a name that is not there
    ([p.name || '']) counts as the empty string. *)
Definition name_text (p : Process) : string :=
  match p_name p with Str s => s | _ => EmptyString end.

(** Every embedded quote character doubled. *)
Definition double_quotes (s : string) : string :=
  string_of_list_ascii
    (flat_map (fun c => if Ascii.eqb c dquote then [dquote; dquote] else [c])
       (list_ascii_of_string s)).

(** A field with its quotes doubled and the whole wrapped in quotes. *)
Definition csv_quote (s : string) : string :=
  String dquote (double_quotes s ++ String dquote EmptyString).

(** A reader of quoted CSV fields: after the opening quote, two quotes in a
    row stand for one and a single quote ends the field; the result is the
    field and the text behind the closing quote. *)
Fixpoint read_quoted_body (s : string) : option (string * string) :=
  match s with
  | EmptyString => None
  | String c r =>
      if Ascii.eqb c dquote then
        match r with
        | String c2 r2 =>
            if Ascii.eqb c2 dquote then
              match read_quoted_body r2 with
              | Some (f, rest) => Some (String dquote f, rest)
              | None => None
              end
            else Some (EmptyString, r)
        | EmptyString => Some (EmptyString, EmptyString)
        end
      else
        match read_quoted_body r with
        | Some (f, rest) => Some (String c f, rest)
        | None => None
        end
  end.

Definition csv_read_quoted (s : string) : option (string * string) :=
  match s with
  | String c r => if Ascii.eqb c dquote then read_quoted_body r else None
  | EmptyString => None
  end.

(** The [fmt] parameters that ask for the document: the spellings of
    [pdf] in either letter case. *)
Definition pdf_spellings : list string :=
  ["pdf"; "pdF"; "pDf"; "pDF"; "Pdf"; "PdF"; "PDf"; "PDF"].

Definition asks_for_pdf (query_fmt : option string) : Prop :=
  exists s : string, query_fmt = Some s /\ In s pdf_spellings.

(** A process name the CSV branch can write: a string, or a falsy value. *)
Definition name_writable (p : Process) : Prop :=
  is_string (p_name p) = true \/ truthy (p_name p) = false.

(** A process with a quote in its name. *)
Definition process_quoted : Process :=
  {| p_pid := Num (Fin 42);
     p_name := Str (String "a" (String dquote (String "b" EmptyString)));
     p_command := Undefined; p_pcpu := Num (Fin 3); p_cpu := Undefined;
     p_cpuPercent := Undefined; p_cpuUsage := Undefined;
     p_pmem := Num (Fin 1); p_mem := Undefined; p_memPercent := Undefined |}.

Definition snapshot_poll_quoted : Robust.SnapshotPoll :=
  {| Robust.np_stats := load_12; Robust.np_mem := Some mem_half_used;
     Robust.np_battery := Some no_battery;
     Robust.np_procs := Some {| list_ := Some [process_quoted] |} |}.

(** ** The log as a sequence of appended lines *)

Fixpoint has_newline (s : string) : bool :=
  match s with
  | String c r => (Ascii.eqb c newline || has_newline r)%bool
  | EmptyString => false
  end.

(** A line of the log: not empty, on one line, no white space around it. *)
Definition log_line (s : string) : Prop :=
  s <> EmptyString /\ has_newline s = false /\ trim s = s.

(** The log file once the lines [ls] were appended, in this order, to a
    file that was not there. *)
Definition log_after (ls : list string) : LogFile :=
  fold_left (fun f line => appendLogAsync line f) ls None.

(** ** Auxiliary functions of the proofs *)

(** The value of a numeral read from its first digit on, on top of [acc]. *)
Fixpoint uint_value (d : Decimal.uint) (acc : N) : N :=
  match d with
  | Decimal.Nil => acc
  | Decimal.D0 l => uint_value l (10 * acc + 0)
  | Decimal.D1 l => uint_value l (10 * acc + 1)
  | Decimal.D2 l => uint_value l (10 * acc + 2)
  | Decimal.D3 l => uint_value l (10 * acc + 3)
  | Decimal.D4 l => uint_value l (10 * acc + 4)
  | Decimal.D5 l => uint_value l (10 * acc + 5)
  | Decimal.D6 l => uint_value l (10 * acc + 6)
  | Decimal.D7 l => uint_value l (10 * acc + 7)
  | Decimal.D8 l => uint_value l (10 * acc + 8)
  | Decimal.D9 l => uint_value l (10 * acc + 9)
  end%N.

(** The lines joined by line feeds, as [trim] leaves the file. *)
Fixpoint join_lines (ls : list string) : string :=
  match ls with
  | nil => EmptyString
  | [l] => l
  | l :: r => l ++ String newline (join_lines r)
  end.

(** An entry whose cpu field is not a numeral. *)
Definition process_abc : Process :=
  {| p_pid := Num (Fin 7); p_name := Str "node"; p_command := Undefined;
     p_pcpu := Str "abc"; p_cpu := Undefined; p_cpuPercent := Undefined;
     p_cpuUsage := Undefined; p_pmem := Undefined; p_mem := Undefined;
     p_memPercent := Undefined |}.

(** An entry with a finite, non-negative cpu below 10^21, as
    [Fallback.api_processes] reads it. *)
Definition plain_cpu (p : Process) : Prop :=
  exists q : Q,
    ToNumber (coalesce (coalesce (p_pcpu p) (p_cpu p)) (Num (Fin 0))) = Fin q
    /\ (0 <= q)%Q /\ (q < inject_Z (10 ^ 21))%Q.

(** The Number a cpu written by [toFixed(2)] stands for. *)
Definition cpu_number (e : ProcessSample) : Q :=
  match ToNumber (s_cpu e) with Fin q => q | _ => 0%Q end.

Definition numeric_cpu (e : ProcessSample) : Prop :=
  exists q : Q, ToNumber (s_cpu e) = Fin q.

(** Two lines as the logger writes them. *)
Definition two_log_lines : list string :=
  ["[1/1/2025, 10:00:00 AM] CPU:12.5% RAM:25% Battery:N/A";
   "[1/1/2025, 10:01:00 AM] CPU:3% RAM:26.5% Battery:80"].

(** ** The page's script: [script.js], lines 1-140

    The part of the page that computes: what it writes into the page, the
    sliding window of the charts and the throttling of alerts. A response of
    the server reaches the script through JSON. *)

(** A value after [JSON.stringify] and [JSON.parse]: a Number that is not
    finite arrives as [null]; a field that is [undefined] is left out and
    reads as [undefined]. *)
Definition json_value (v : value) : value :=
  match v with
  | Num (Fin _) => v
  | Num _ => Null
  | _ => v
  end.

(** [x >= y] on Numbers. *)
Definition num_ge (x y : num) : bool :=
  match x, y with
  | NaN, _ | _, NaN => false
  | PosInf, _ => true
  | _, NegInf => true
  | NegInf, _ => false
  | _, PosInf => false
  | Fin a, Fin b => Qle_bool b a
  end.

(** [x <= y] on Numbers. *)
Definition num_le (x y : num) : bool := num_ge y x.

(** [a <= b] on primitives: two strings are compared as strings, anything
    else as Numbers. *)
Definition js_le (a b : value) : bool :=
  match a, b with
  | Str s, Str t => String.leb s t
  | _, _ => num_le (ToNumber a) (ToNumber b)
  end.

Module Client.

(** The two arrays of a chart the script touches. *)
Record Chart : Type := { labels : list string; data : list num }.

Definition empty_chart : Chart := {| labels := []; data := [] |}.

(** [pushChart(chart, label, value)]. *)
Definition pushChart (chart : Chart) (label : string) (value : num) : Chart :=
  let labels := (labels chart ++ [label])%list in
  let data := (data chart ++ [value])%list in
  if (30 <? List.length labels)%nat
  then {| labels := tl labels; data := tl data |}
  else {| labels := labels; data := data |}.

(** The fields of the body of GET /api/stats the script reads; [gpu] is an
    array of controllers when it is there. *)
Record StatsBody : Type :=
  { sb_cpu : value; sb_cpuLoad : value; sb_ram : value; sb_usedMem : value;
    sb_battery : value; sb_gpu : option (list Controller) }.

(** What the page shows and plots. *)
Record Page : Type :=
  { cpuEl : string; ramEl : string; batteryEl : string; gpuEl : string;
    cpuChart : Chart; ramChart : Chart }.

(** The throttle of the alerts: when each kind last fired. *)
Record LastAlert : Type := { la_cpu : Z; la_ram : Z; la_battery : Z }.

(** [let lastAlert = {cpu:0, ram:0, battery:0}]. *)
Definition lastAlert_init : LastAlert :=
  {| la_cpu := 0; la_ram := 0; la_battery := 0 |}.

(** A call of [notify]. *)
Inductive alert : Type :=
| HighCpu (cpu : num)
| HighRam (ram : num)
| LowBattery (battery : value).

(** The thresholds the script falls back on when the server does not
    answer with status 200. *)
Definition fallback_thresholds : Thresholds :=
  {| t_cpu := Num (Fin 90); t_ram := Num (Fin 85); t_battery := Num (Fin 15) |}.

(** [checkAlerts(cpu, ram, battery)] at time [now] (milliseconds), on the
    outcome of its request for the thresholds: [Rejected] when the request
    or the parsing throws, [None] when the status is not 200. It gives the
    calls of [notify] it makes, in order, and the new throttle. *)
Definition checkAlerts (th : outcome (option Thresholds)) (now : Z)
  (cpu ram : num) (battery : value) (lastAlert : LastAlert)
  : list alert * LastAlert :=
  match th with
  | Rejected => ([], lastAlert)
  | Resolved r =>
      let th := match r with Some t => t | None => fallback_thresholds end in
      let '(n1, l1) :=
        if (num_ge cpu (ToNumber (t_cpu th))
            && (1000 * 60 * 3 <? now - la_cpu lastAlert)%Z)%bool
        then ([HighCpu cpu],
              {| la_cpu := now; la_ram := la_ram lastAlert;
                 la_battery := la_battery lastAlert |})
        else ([], lastAlert) in
      let '(n2, l2) :=
        if (num_ge ram (ToNumber (t_ram th))
            && (1000 * 60 * 3 <? now - la_ram l1)%Z)%bool
        then ([HighRam ram],
              {| la_cpu := la_cpu l1; la_ram := now; la_battery := la_battery l1 |})
        else ([], l1) in
      let '(n3, l3) :=
        if (match battery with Null => false | _ => true end
            && match battery with Str "N/A" => false | _ => true end
            && js_le battery (t_battery th)
            && (1000 * 60 * 30 <? now - la_battery l2)%Z)%bool
        then ([LowBattery battery],
              {| la_cpu := la_cpu l2; la_ram := la_ram l2; la_battery := now |})
        else ([], l2) in
      ((n1 ++ n2 ++ n3)%list, l3)
  end.

(** One call of [checkAlerts]: its arguments and what it met. *)
Record Call : Type :=
  { c_th : outcome (option Thresholds); c_now : Z;
    c_cpu : num; c_ram : num; c_battery : value }.

(** Calls of [checkAlerts] one after the other: the time and the alerts of
    each, and the throttle at the end. *)
Fixpoint run (calls : list Call) (lastAlert : LastAlert)
  : list (Z * list alert) * LastAlert :=
  match calls with
  | [] => ([], lastAlert)
  | c :: rest =>
      let '(out, l1) :=
        checkAlerts (c_th c) (c_now c) (c_cpu c) (c_ram c) (c_battery c) lastAlert in
      let '(log, l2) := run rest l1 in
      ((c_now c, out) :: log, l2)
  end.

Definition is_HighCpu (a : alert) : bool :=
  match a with HighCpu _ => true | _ => false end.
Definition is_HighRam (a : alert) : bool :=
  match a with HighRam _ => true | _ => false end.
Definition is_LowBattery (a : alert) : bool :=
  match a with LowBattery _ => true | _ => false end.

(** The times of the calls that raised an alert of one kind. *)
Definition times_of (kind : alert -> bool) (log : list (Z * list alert)) : list Z :=
  map fst (filter (fun e => existsb kind (snd e)) log).

(** [fetchLogs]: what the log area shows for a response of GET /api/logs. *)
Definition fetchLogs (r : response (list string)) : string :=
  match r with
  | Json lines => String.concat (String newline EmptyString) lines
  | Status500 => "Error loading logs"
  end.

Section WithRuntime.
Context {rt : Runtime}.

(** The text [notify] is called with. *)
Definition alert_text (a : alert) : string :=
  match a with
  | HighCpu cpu => "High CPU: " ++ ToString (Num cpu) ++ "%"
  | HighRam ram => "High RAM: " ++ ToString (Num ram) ++ "%"
  | LowBattery battery => "Low Battery: " ++ ToString battery ++ "%"
  end.

(** The text of the battery element. *)
Definition battery_text (battery : value) : string :=
  if (nullish battery
      || match battery with Str "N/A" => true | _ => false end)%bool
  then "N/A"
  else ToString battery ++ "%".

(** The text of the GPU element: the model of the first controller; an array
    written as text when that model is falsy or the array is empty. *)
Definition gpu_text (gpu : option (list Controller)) : string :=
  match gpu with
  | Some (g :: rest) =>
      if truthy (g_model g) then ToString (g_model g)
      else String.concat "," (map (fun _ => "[object Object]") (g :: rest))
  | Some [] => ""
  | None => "N/A"
  end.

(** [fetchStats] on a response with status 200, at local time [now]: the
    new page, and the arguments of its call of [checkAlerts]. *)
Definition fetchStats (d : StatsBody) (now : string) (page : Page)
  : Page * (num * num * value) :=
  let cpu := ToNumber (coalesce (coalesce (sb_cpu d) (sb_cpuLoad d)) (Num (Fin 0))) in
  let ram := ToNumber (coalesce (coalesce (sb_ram d) (sb_usedMem d)) (Num (Fin 0))) in
  ({| cpuEl := ToString (coalesce (coalesce (sb_cpu d) (sb_cpuLoad d)) (Num (Fin 0)))
               ++ "%";
      ramEl := ToString (coalesce (coalesce (sb_ram d) (sb_usedMem d)) (Num (Fin 0)))
               ++ "%";
      batteryEl := battery_text (sb_battery d);
      gpuEl := gpu_text (sb_gpu d);
      cpuChart := pushChart (cpuChart page) now cpu;
      ramChart := pushChart (ramChart page) now ram |},
   (cpu, ram, sb_battery d)).

End WithRuntime.

End Client.

(** The body of a reply of the robust GET /api/stats, as the script parses
    it. *)
Definition stats_body (s : Robust.Stats) : Client.StatsBody :=
  {| Client.sb_cpu := json_value (Robust.cpu s);
     Client.sb_cpuLoad := Undefined;
     Client.sb_ram := json_value (Robust.ram s);
     Client.sb_usedMem := Undefined;
     Client.sb_battery := json_value (Robust.battery s);
     Client.sb_gpu :=
       Some (map (fun g => {| g_model := json_value (g_model g);
                              g_vendor := json_value (g_vendor g);
                              g_vram := json_value (g_vram g);
                              g_utilizationGpu := json_value (g_utilizationGpu g) |})
               (Robust.gpu s)) |}.

(** ** Further notions of the properties *)

(** The last [n] elements of a list. *)
Definition lastn {A : Type} (n : nat) (l : list A) : list A :=
  skipn (List.length l - n) l.

(** Times more than [d] apart, each from the one before. *)
Definition spaced (d : Z) (times : list Z) : Prop :=
  Sorted (fun t t' => d < t' - t) times.

(** The cpu of a raw process entry as the snapshot compares it. *)
Definition raw_cpu (p : Process) : num :=
  ToNumber (coalesce (coalesce (p_pcpu p) (p_cpu p)) (Num (Fin 0))).

Definition raw_cpu_key (p : Process) : Q :=
  match raw_cpu p with Fin q => q | _ => 0%Q end.

Definition finite_raw_cpu (p : Process) : Prop :=
  exists q : Q, raw_cpu p = Fin q.

(** The thresholds are Numbers. *)
Definition numeric_thresholds (t : Thresholds) : Prop :=
  is_number (t_cpu t) = true /\ is_number (t_ram t) = true
  /\ is_number (t_battery t) = true.

(** The thresholds after a sequence of POST /api/thresholds. *)
Definition thresholds_after (bodies : list (option ThresholdsBody))
  (t : Thresholds) : Thresholds :=
  fold_left (fun t b => fst (Robust.post_thresholds t b)) bodies t.

(** Points pushed to a chart one after the other. *)
Definition push_all (points : list (string * num)) (chart : Client.Chart)
  : Client.Chart :=
  fold_left (fun c p => Client.pushChart c (fst p) (snd p)) points chart.

(** A page before its first reading, and a poll on a machine without a
    battery. *)
Definition empty_page : Client.Page :=
  {| Client.cpuEl := ""; Client.ramEl := ""; Client.batteryEl := "";
     Client.gpuEl := ""; Client.cpuChart := Client.empty_chart;
     Client.ramChart := Client.empty_chart |}.

Definition poll_no_battery : Robust.StatsPoll :=
  {| Robust.sp_cpuLoad := load_12; Robust.sp_mem := Some mem_half_used;
     Robust.sp_battery := Some no_battery; Robust.sp_fsSize := None;
     Robust.sp_graphics := None |}.

(** The line a tick of the robust logger appends. *)
Definition cron_line {rt : Runtime} (now : string) (poll : Robust.CronPoll) : string :=
  let '(cpuVal, ramVal, battVal) := Robust.cron_values poll in
  "[" ++ now ++ "] CPU:" ++ ToString cpuVal ++ "% RAM:" ++ ToString ramVal
  ++ "% Battery:" ++ ToString battVal.

(** The file systems and the controllers a poll of GET /api/stats holds. *)
Definition poll_fsSize (poll : Robust.StatsPoll) : list FsSize :=
  match Robust.sp_fsSize poll with Some l => l | None => [] end.

Definition poll_controllers (poll : Robust.StatsPoll) : list Controller :=
  match Robust.sp_graphics poll with
  | Some gr => match controllers gr with Some l => l | None => [] end
  | None => []
  end.

(** Three processes with plain cpu fields, two of them tied. *)
Definition plain_processes : option Processes :=
  let raw (n : string) (c : Q) :=
    {| p_pid := Undefined; p_name := Str n; p_command := Undefined;
       p_pcpu := Num (Fin c); p_cpu := Undefined; p_cpuPercent := Undefined;
       p_cpuUsage := Undefined; p_pmem := Undefined; p_mem := Undefined;
       p_memPercent := Undefined |} in
  Some {| list_ := Some [raw "a" 1%Q; raw "b" 7%Q; raw "c" 1%Q] |}.

(** A battery flagged present at 80 percent. *)
Definition battery_80 : Battery :=
  {| hasbattery := Bool true; percent := Num (Fin 80);
     ischarging := Bool false; maxcapacity := Num (Fin 0) |}.

(** ** [server.cjs]: the report, and the JSON log over several ticks *)

(** The texts GET /api/report hands to [doc.text], in order, for the [info]
    of [getSystemInfo] and the local time [now]. *)
Definition report_texts {rt : Runtime} (info : ServerCjs.SystemInfo) (now : string)
  : list string :=
  [ "System Resource Report";
    "CPU Load: " ++ ToString (ServerCjs.cpu info) ++ "%";
    "Memory Usage: " ++ ToString (ServerCjs.memory info) ++ "%";
    "Battery: " ++ ToString (ServerCjs.battery info) ++ "% ("
      ++ (if truthy (ServerCjs.charging info) then "Charging" else "Not Charging")
      ++ ")";
    "Generated at: " ++ now ].

(** GET /api/report of [server.cjs]. *)
Definition api_report {rt : Runtime} (cpu : outcome CurrentLoad)
  (mem : outcome (option Mem)) (battery : outcome (option Battery)) (now : string)
  : list string :=
  report_texts (ServerCjs.getSystemInfo cpu mem battery) now.

(** The battery sensor fails, or does not flag a battery. *)
Definition no_battery_reading (battery : outcome (option Battery)) : Prop :=
  match battery with
  | Resolved (Some b) => truthy (hasbattery b) = false
  | _ => True
  end.

(** The load or the memory cannot be read: a sensor fails, there is no
    memory object, or the load is not a Number. *)
Definition sensors_unreadable (cpu : outcome CurrentLoad)
  (mem : outcome (option Mem)) : Prop :=
  cpu = Rejected \/ mem = Rejected \/ mem = Resolved None
  \/ (exists cl, cpu = Resolved cl /\ forall n, currentLoad cl <> Num n).

(** What one tick of the logger of [server.cjs] meets: the time and the
    three sensor results. *)
Record Tick : Type :=
  { tk_timestamp : string; tk_cpu : outcome CurrentLoad;
    tk_mem : outcome (option Mem); tk_battery : outcome (option Battery) }.

(** The entry a tick pushes. *)
Definition tick_entry {rt : Runtime} (t : Tick) : ServerCjs.LogEntry :=
  {| ServerCjs.timestamp := tk_timestamp t;
     ServerCjs.info := ServerCjs.getSystemInfo (tk_cpu t) (tk_mem t) (tk_battery t) |}.

(** The ticks of the logger, one after the other. *)
Definition run_ticks {rt : Runtime} (ticks : list Tick) (file : ServerCjs.JsonLog)
  : ServerCjs.JsonLog :=
  fold_left
    (fun f t => ServerCjs.cron_tick (tk_timestamp t) (tk_cpu t) (tk_mem t)
                  (tk_battery t) f)
    ticks file.

(** The array a tick starts from: the parsed file, or the empty array. *)
Definition log_entries (file : ServerCjs.JsonLog) : list ServerCjs.LogEntry :=
  match file with ServerCjs.Entries l => l | _ => [] end.

(** * Properties *)

Local Open Scope list_scope.

(** ** Facts about the sort *)

Section SortFacts.
Variable A : Type.
Variable cmp : A -> A -> num.
Variable key : A -> Q.
Variable P : A -> Prop.
Hypothesis cmp_key :
  forall a b, P a -> P b -> cmp_sign (cmp a b) = (key b ?= key a)%Q.

Lemma sort_insert_perm x l : Permutation (sort_insert cmp x l) (x :: l).
Proof.
  induction l as [|y r IH]; simpl.
  - apply Permutation_refl.
  - destruct (cmp_sign (cmp x y)); try apply Permutation_refl.
    eapply Permutation_trans; [apply perm_skip, IH | apply perm_swap].
Qed.

Lemma array_sort_perm l : Permutation (array_sort cmp l) l.
Proof.
  induction l as [|x r IH]; simpl.
  - apply perm_nil.
  - eapply Permutation_trans; [apply sort_insert_perm | apply perm_skip, IH].
Qed.

Lemma array_sort_Forall (Q0 : A -> Prop) l :
  Forall Q0 l -> Forall Q0 (array_sort cmp l).
Proof.
  intros H. apply Forall_forall. intros x Hx.
  rewrite Forall_forall in H. apply H.
  eapply Permutation_in; [apply array_sort_perm | exact Hx].
Qed.

Lemma sort_insert_sorted x l :
  P x -> Forall P l -> StronglySorted (key_ge key) l ->
  StronglySorted (key_ge key) (sort_insert cmp x l).
Proof.
  intros Px Pl Hs. induction Hs as [|y r Hr IH Hy]; simpl.
  - constructor; constructor.
  - inversion Pl as [|? ? Py Pr]; subst.
    rewrite (cmp_key x y Px Py).
    destruct (key y ?= key x)%Q eqn:E.
    + apply Qeq_alt in E.
      constructor; [constructor; assumption|].
      constructor; [unfold key_ge; rewrite E; apply Qle_refl|].
      rewrite Forall_forall in Hy |- *. intros z Hz.
      unfold key_ge in *. rewrite <- E. apply Hy, Hz.
    + apply Qlt_alt in E.
      constructor; [constructor; assumption|].
      constructor; [unfold key_ge; apply Qlt_le_weak, E|].
      rewrite Forall_forall in Hy |- *. intros z Hz.
      unfold key_ge in *. eapply Qle_trans; [apply Hy, Hz|apply Qlt_le_weak, E].
    + apply Qgt_alt in E.
      constructor; [apply IH, Pr|].
      apply Forall_forall. intros z Hz.
      apply (Permutation_in _ (sort_insert_perm x r)) in Hz.
      destruct Hz as [<-|Hz].
      * unfold key_ge. apply Qlt_le_weak, E.
      * rewrite Forall_forall in Hy. apply Hy, Hz.
Qed.

Lemma array_sort_sorted l :
  Forall P l -> StronglySorted (key_ge key) (array_sort cmp l).
Proof.
  induction l as [|x r IH]; intros H; simpl.
  - constructor.
  - inversion H; subst. apply sort_insert_sorted; auto.
    apply array_sort_Forall; assumption.
Qed.

(** Stability: the entries of one key keep their order. *)
Lemma sort_insert_stable c x l :
  P x -> Forall P l ->
  filter (fun e => Qeq_bool (key e) c) (sort_insert cmp x l)
  = filter (fun e => Qeq_bool (key e) c) (x :: l).
Proof.
  intros Px Pl. induction l as [|y r IH]; [reflexivity|].
  inversion Pl as [|? ? Py Pr]; subst. simpl.
  rewrite (cmp_key x y Px Py).
  destruct (key y ?= key x)%Q eqn:E; try reflexivity.
  apply Qgt_alt in E. simpl. rewrite (IH Pr). simpl.
  destruct (Qeq_bool (key x) c) eqn:Ex; [|reflexivity].
  destruct (Qeq_bool (key y) c) eqn:Ey; [|reflexivity].
  apply Qeq_bool_iff in Ex, Ey. rewrite Ex, Ey in E.
  exfalso. exact (Qlt_irrefl _ E).
Qed.

Lemma array_sort_stable c l :
  Forall P l ->
  filter (fun e => Qeq_bool (key e) c) (array_sort cmp l)
  = filter (fun e => Qeq_bool (key e) c) l.
Proof.
  induction l as [|x r IH]; intros H; [reflexivity|].
  inversion H; subst. simpl array_sort.
  rewrite sort_insert_stable; auto using array_sort_Forall.
  simpl. rewrite IH by assumption. reflexivity.
Qed.

End SortFacts.

Lemma StronglySorted_app_inv {A} (R : A -> A -> Prop) l1 l2 :
  StronglySorted R (l1 ++ l2) ->
  StronglySorted R l1 /\ StronglySorted R l2
  /\ (forall a b, In a l1 -> In b l2 -> R a b).
Proof.
  induction l1 as [|x l1 IH]; simpl; intros H.
  - repeat split; [constructor | assumption | intros a b []].
  - inversion H as [|? ? Hs Hx]; subst.
    destruct (IH Hs) as (H1 & H2 & H3).
    rewrite Forall_app in Hx. destruct Hx as [Hx1 Hx2].
    repeat split; [constructor; assumption | assumption |].
    intros a b [<-|Ha] Hb.
    + rewrite Forall_forall in Hx2. apply Hx2, Hb.
    + apply H3; assumption.
Qed.

Lemma filter_firstn_prefix {A} (f : A -> bool) n (l : list A) :
  exists more, filter f l = filter f (firstn n l) ++ more.
Proof.
  exists (filter f (skipn n l)).
  rewrite <- filter_app, firstn_skipn. reflexivity.
Qed.

(** ** Normalised process entries *)

Lemma Qcompare_sub_0 (a b : Q) : (Qred (b - a) ?= 0)%Q = (b ?= a)%Q.
Proof.
  rewrite (Qred_correct (b - a)).
  unfold Qcompare, Qminus, Qplus, Qopp. simpl.
  rewrite Z.mul_1_r.
  rewrite (Z.compare_sub (Qnum b * QDen a)).
  f_equal. ring.
Qed.

Lemma safeNum_finite (v : value) : exists q : Q, Robust.safeNum v = Fin q.
Proof.
  unfold Robust.safeNum.
  destruct (nullish v); [now exists 0%Q|].
  destruct (ToNumber v) as [| | |q]; simpl; eauto.
Qed.

Lemma safeNum_missing (v : value) :
  missing_or_non_numeric v -> Robust.safeNum v = Fin 0.
Proof.
  unfold Robust.safeNum. intros [H|H].
  - now rewrite H.
  - destruct (nullish v); [reflexivity|]. now rewrite H.
Qed.

(** [Math.round(x * 100) / 100] of a finite number. *)
Lemma round_hundredths (q : Q) :
  num_div (Math_round (num_mul (Fin q) (Fin 100))) (Fin 100)
  = Fin (Qred (inject_Z (Qfloor (Qred (q * 100) + (1 # 2))) / 100)).
Proof. reflexivity. Qed.

Lemma mapped_entry_cpu (p : Process) :
  exists z : Z, s_cpu (Robust.mapped_entry p) = Num (Fin (Qred (inject_Z z / 100))).
Proof.
  unfold Robust.mapped_entry. cbn [s_cpu ToNumber].
  destruct (safeNum_finite
    (coalesce (coalesce (coalesce (coalesce (p_pcpu p) (p_cpu p)) (p_cpuPercent p))
                (p_cpuUsage p)) (Num (Fin 0)))) as [q ->].
  rewrite round_hundredths. eauto.
Qed.

Lemma mapped_entry_mem (p : Process) :
  exists z : Z, s_mem (Robust.mapped_entry p) = Num (Fin (Qred (inject_Z z / 100))).
Proof.
  unfold Robust.mapped_entry. cbn [s_mem ToNumber].
  destruct (safeNum_finite
    (coalesce (coalesce (coalesce (p_pmem p) (p_mem p)) (p_memPercent p))
       (Num (Fin 0)))) as [q ->].
  rewrite round_hundredths. eauto.
Qed.

Lemma mapped_finite (l : list Process) :
  Forall finite_cpu (map Robust.mapped_entry l).
Proof.
  apply Forall_forall. intros e He. apply in_map_iff in He.
  destruct He as (p & <- & _). destruct (mapped_entry_cpu p) as [z Hz].
  eexists. exact Hz.
Qed.

Lemma by_cpu_desc_key (a b : ProcessSample) :
  finite_cpu a -> finite_cpu b ->
  cmp_sign (Robust.by_cpu_desc a b) = (cpu_key b ?= cpu_key a)%Q.
Proof.
  intros [qa Ha] [qb Hb]. unfold Robust.by_cpu_desc, cpu_key.
  rewrite Ha, Hb. simpl. apply Qcompare_sub_0.
Qed.

Lemma key_ge_cpu_ge (a b : ProcessSample) :
  finite_cpu a -> finite_cpu b -> key_ge cpu_key a b -> cpu_ge a b.
Proof.
  intros [qa Ha] [qb Hb] H. exists qa, qb. unfold key_ge, cpu_key in H.
  rewrite Ha, Hb in H. auto.
Qed.

Lemma sorted_cpu_ge (l : list ProcessSample) :
  Forall finite_cpu l -> StronglySorted (key_ge cpu_key) l ->
  StronglySorted cpu_ge l.
Proof.
  intros Hf Hs. induction Hs as [|x r Hr IH Hx]; [constructor|].
  inversion Hf as [|? ? Fx Fr]; subst.
  constructor; [apply IH, Fr|].
  rewrite Forall_forall in *. intros y Hy.
  apply key_ge_cpu_ge; auto.
Qed.

Lemma StronglySorted_firstn {A} (R : A -> A -> Prop) n (l : list A) :
  StronglySorted R l -> StronglySorted R (firstn n l).
Proof.
  intros H. rewrite <- (firstn_skipn n l) in H.
  apply StronglySorted_app_inv in H. tauto.
Qed.

(** The sorted list of normalised entries behind a reply. *)
Lemma sorted_mapped (l : list Process) :
  StronglySorted cpu_ge (array_sort Robust.by_cpu_desc (map Robust.mapped_entry l)).
Proof.
  apply sorted_cpu_ge.
  - apply array_sort_Forall, mapped_finite.
  - apply (array_sort_sorted _ _ cpu_key finite_cpu by_cpu_desc_key).
    apply mapped_finite.
Qed.

(** C4. For every process list the sensor returns, GET /api/processes
    replies with at most five entries, taken from the front of the
    normalised list sorted by descending cpu: any earlier entry of the reply
    has a cpu at least that of any later one (adjacent ones in particular),
    no entry left out has a higher cpu than one of the reply, and the
    entries of one cpu value stand in their order of enumeration. *)
Theorem api_processes_top5 (procInfo : option Processes) :
  let mapped := map Robust.mapped_entry (process_list procInfo) in
  exists top rest : list ProcessSample,
    Robust.api_processes (Resolved procInfo) = Json top
    /\ (List.length top <= 5)%nat
    /\ List.length top = Nat.min 5 (List.length mapped)
    /\ Permutation (top ++ rest) mapped
    /\ StronglySorted cpu_ge top
    /\ Sorted cpu_ge top
    /\ (forall a b, In a top -> In b rest -> cpu_ge a b)
    /\ (forall c : Q, exists more,
          filter (has_cpu c) mapped = filter (has_cpu c) top ++ more).
Proof.
  intros mapped.
  set (sorted := array_sort Robust.by_cpu_desc mapped).
  assert (Hs : StronglySorted cpu_ge sorted) by apply sorted_mapped.
  exists (firstn 5 sorted), (skipn 5 sorted).
  assert (Hp : Permutation sorted mapped) by apply array_sort_perm.
  repeat split.
  - apply firstn_le_length.
  - rewrite length_firstn. f_equal. apply Permutation_length, Hp.
  - rewrite firstn_skipn. exact Hp.
  - apply StronglySorted_firstn, Hs.
  - apply StronglySorted_Sorted, StronglySorted_firstn, Hs.
  - rewrite <- (firstn_skipn 5 sorted) in Hs.
    apply StronglySorted_app_inv in Hs. tauto.
  - intros c.
    assert (Hst : filter (has_cpu c) sorted = filter (has_cpu c) mapped).
    { apply (array_sort_stable _ _ cpu_key finite_cpu by_cpu_desc_key).
      apply mapped_finite. }
    rewrite <- Hst. apply filter_firstn_prefix.
Qed.

Lemma safeNum_coalesce_missing (v : value) :
  missing_or_non_numeric v -> Robust.safeNum (coalesce v (Num (Fin 0))) = Fin 0.
Proof.
  intros H. unfold coalesce. destruct (nullish v) eqn:E; [reflexivity|].
  apply safeNum_missing, H.
Qed.

(** C8. Normalising a raw process entry always gives a finite cpu and a
    finite mem of at most two decimals; a cpu (mem) field that is missing
    or does not convert to a finite Number gives 0; the handler answers
    with a list whatever the entries are, and in the sorted list no entry
    behind the normalised one has a higher cpu. *)
Theorem mapped_entry_safe (p : Process) :
  let e := Robust.mapped_entry p in
  two_decimals (s_cpu e) /\ two_decimals (s_mem e)
  /\ (missing_or_non_numeric (cpu_field p) -> s_cpu e = Num (Fin 0))
  /\ (missing_or_non_numeric (mem_field p) -> s_mem e = Num (Fin 0))
  /\ (forall others1 others2 : list Process,
        let list := others1 ++ p :: others2 in
        let sorted := array_sort Robust.by_cpu_desc (map Robust.mapped_entry list) in
        Robust.api_processes (Resolved (Some {| list_ := Some list |}))
        = Json (firstn 5 sorted)
        /\ In e sorted
        /\ forall before after, sorted = before ++ e :: after ->
             forall f, In f after -> (cpu_key f <= cpu_key e)%Q).
Proof.
  intros e. split; [apply mapped_entry_cpu|]. split; [apply mapped_entry_mem|].
  split; [|split].
  - intros H. subst e. unfold Robust.mapped_entry. cbn [s_cpu ToNumber].
    fold (cpu_field p). rewrite (safeNum_coalesce_missing _ H). reflexivity.
  - intros H. subst e. unfold Robust.mapped_entry. cbn [s_mem ToNumber].
    fold (mem_field p). rewrite (safeNum_coalesce_missing _ H). reflexivity.
  - intros others1 others2 list sorted. split; [reflexivity|]. split.
    + apply (Permutation_in _ (Permutation_sym (array_sort_perm _ _ _))).
      subst list. rewrite map_app. apply in_or_app. right. left. reflexivity.
    + intros before after Heq f Hf.
      pose proof (sorted_mapped list) as Hs. fold sorted in Hs.
      rewrite Heq in Hs. apply StronglySorted_app_inv in Hs.
      destruct Hs as (_ & Hs & _). inversion Hs as [|? ? _ Hall]; subst.
      rewrite Forall_forall in Hall. destruct (Hall f Hf) as (qa & qb & Ha & Hb & Hle).
      unfold cpu_key. rewrite Ha, Hb. exact Hle.
Qed.


Lemma mapped_entry_safe_witness :
  missing_or_non_numeric (cpu_field process_abc)
  /\ s_cpu (Robust.mapped_entry process_abc) = Num (Fin 0).
Proof.
  assert (H : missing_or_non_numeric (cpu_field process_abc))
    by (right; reflexivity).
  split; [exact H|].
  exact (proj1 (proj2 (proj2 (mapped_entry_safe process_abc))) H).
Defined.

(** ** Thresholds *)

(** C7. POST /api/thresholds replaces exactly the thresholds whose body
    field is a number and keeps the others, whatever else the body holds;
    a body [{cpu: 95}] changes the cpu threshold alone; the reply carries
    the resulting configuration, which is the new state. *)
Theorem post_thresholds_merge (thresholds : Thresholds) (body : option ThresholdsBody) :
  let b := match body with
           | Some b => b
           | None => {| b_cpu := Undefined; b_ram := Undefined; b_battery := Undefined |}
           end in
  let after := fst (Robust.post_thresholds thresholds body) in
  t_cpu after = (if is_number (b_cpu b) then b_cpu b else t_cpu thresholds)
  /\ t_ram after = (if is_number (b_ram b) then b_ram b else t_ram thresholds)
  /\ t_battery after
     = (if is_number (b_battery b) then b_battery b else t_battery thresholds)
  /\ snd (Robust.post_thresholds thresholds body) = Json after
  /\ Robust.get_thresholds after = Json after
  /\ Robust.post_thresholds thresholds
       (Some {| b_cpu := Num (Fin 95); b_ram := Undefined; b_battery := Undefined |})
     = ({| t_cpu := Num (Fin 95); t_ram := t_ram thresholds;
           t_battery := t_battery thresholds |},
        Json {| t_cpu := Num (Fin 95); t_ram := t_ram thresholds;
                t_battery := t_battery thresholds |}).
Proof.
  destruct thresholds as [c r bt].
  destruct body as [[bc br bb]|]; cbn;
    repeat match goal with
           | |- context [is_number ?v] => destruct v; cbn
           end; repeat split; reflexivity.
Qed.

(** ** The battery field *)

Lemma robust_battery_or (absent : value) (battery : option Battery) :
  let v := if truthy (opt_field battery hasbattery)
           then coalesce (opt_field battery percent) absent
           else absent in
  v = absent \/ reported_percent battery v.
Proof.
  destruct battery as [b|]; cbn; [|now left].
  destruct (truthy (hasbattery b)) eqn:Hh; [|now left].
  unfold coalesce. destruct (nullish (percent b)) eqn:Hn; [now left|].
  right. exists b. auto.
Qed.

(** C1, as the code has it. The battery value of GET /api/stats is [null]
    or the percent of a battery reported present; that of the logger, of
    the snapshot and of [getSystemInfo] in [server.cjs] is the string N/A
    or that percent. The percent is passed on as the sensor gave it, so it
    is a number between 0 and 100 whenever the sensor's is. *)
Theorem battery_field_sources {rt : Runtime}
  (spoll : Robust.StatsPoll) (cpoll : Robust.CronPoll) (npoll : Robust.SnapshotPoll)
  (cpu : outcome CurrentLoad) (mem : outcome (option Mem)) (battery : option Battery) :
  (exists s, Robust.api_stats (Resolved spoll) = Json s
             /\ (Robust.battery s = Null
                 \/ reported_percent (Robust.sp_battery spoll) (Robust.battery s)))
  /\ (let '(_, _, battVal) := Robust.cron_values cpoll in
      battVal = Str "N/A" \/ reported_percent (Robust.cp_battery cpoll) battVal)
  /\ (let '(_, _, batteryVal, _) := Robust.snapshot_values npoll in
      batteryVal = Str "N/A"
      \/ reported_percent (Robust.np_battery npoll) batteryVal)
  /\ (let info := ServerCjs.getSystemInfo cpu mem (Resolved battery) in
      ServerCjs.battery info = Str "N/A"
      \/ reported_percent battery (ServerCjs.battery info))
  /\ (forall (reading : option Battery) (v : value),
        reported_percent reading v ->
        (forall b, reading = Some b -> is_percentage (percent b)) ->
        is_percentage v).
Proof.
  split; [|split; [|split; [|split]]];
    [| | | |intros reading v (b & Hb & _ & _ & ->) H; apply H, Hb].
  - eexists. split; [reflexivity|]. cbn [Robust.battery].
    apply (robust_battery_or Null).
  - cbn. apply (robust_battery_or (Str "N/A")).
  - cbn. apply (robust_battery_or (Str "N/A")).
  - unfold ServerCjs.getSystemInfo, ServerCjs.system_info.
    destruct cpu as [c|]; [|now left].
    destruct mem as [[m|]|]; try now left.
    destruct (call_toFixed2 (currentLoad c)); [|now left].
    cbn [ServerCjs.battery].
    destruct battery as [b|]; cbn; [|now left].
    destruct (truthy (hasbattery b)) eqn:Hh; cbn; [|now left].
    unfold coalesce. destruct (nullish (percent b)) eqn:Hn; [now left|].
    right. exists b. auto.
Qed.

Lemma battery_field_sources_witness :
  reported_percent
    (Some {| hasbattery := Bool true; percent := Num (Fin 80);
             ischarging := Bool false; maxcapacity := Num (Fin 0) |})
    (Num (Fin 80))
  /\ is_percentage (Num (Fin 80)).
Proof.
  set (b := {| hasbattery := Bool true; percent := Num (Fin 80);
               ischarging := Bool false; maxcapacity := Num (Fin 0) |}).
  assert (H : reported_percent (Some b) (Num (Fin 80))).
  { exists b. repeat split; reflexivity. }
  split; [exact H|].
  refine (proj2 (proj2 (proj2 (proj2
            (@battery_field_sources hundredths_runtime
               {| Robust.sp_cpuLoad := load_12; Robust.sp_mem := None;
                  Robust.sp_battery := Some b; Robust.sp_fsSize := None;
                  Robust.sp_graphics := None |}
               {| Robust.cp_cpu := load_12; Robust.cp_mem := None;
                  Robust.cp_battery := Some b |}
               {| Robust.np_stats := load_12; Robust.np_mem := None;
                  Robust.np_battery := Some b; Robust.np_procs := None |}
               (Resolved load_12) (Resolved None) (Some b)))))
            (Some b) (Num (Fin 80)) H _).
  intros b' Hb'. injection Hb' as <-.
  exists 80%Q. split; [reflexivity|]. split; discriminate.
Defined.

(** C1 fails as stated: on a machine without a battery the logger's battery
    value is the string N/A, and GET /api/stats passes on a percent of 150. *)
Lemma battery_field_not_absent_or_percentage :
  (let '(_, _, battVal) :=
     @Robust.cron_values hundredths_runtime
       {| Robust.cp_cpu := load_12; Robust.cp_mem := Some mem_half_used;
          Robust.cp_battery := Some no_battery |} in
   battVal = Str "N/A" /\ ~ absent_or_percentage battVal)
  /\ (exists s,
        @Robust.api_stats hundredths_runtime
          (Resolved {| Robust.sp_cpuLoad := load_12;
                       Robust.sp_mem := Some mem_half_used;
                       Robust.sp_battery :=
                         Some {| hasbattery := Bool true; percent := Num (Fin 150);
                                 ischarging := Bool false;
                                 maxcapacity := Num (Fin 0) |};
                       Robust.sp_fsSize := None; Robust.sp_graphics := None |})
        = Json s
        /\ Robust.battery s = Num (Fin 150)
        /\ ~ absent_or_percentage (Robust.battery s)).
Proof.
  split.
  - cbn. split; [reflexivity|].
    intros [H|[H|(q & H & _)]]; discriminate H.
  - eexists. split; [reflexivity|]. cbn [Robust.battery]. split; [reflexivity|].
    cbn. intros [H|[H|(q & H & H0 & H1)]]; try discriminate H.
    injection H as <-. revert H1. unfold Qle. cbn. lia.
Qed.

(** ** The battery query *)

(** C3, as the code has it. [Fallback.getBatteryInfo] gives the primary
    sensor's percent ([null] when that field is missing) when the primary
    sensor signals a battery (flagged present, or a percent above 0, or a
    capacity above 0); only otherwise it asks the power supply and gives its
    percent when that is truthy; in every other case, a rejected query
    included, it gives [null]. What it gives is [null] or a value a sensor
    reported, never a made-up one. *)
Theorem getBatteryInfo_fallback_cases (battery : outcome (option Battery))
  (powerSupply : outcome (option PowerSupply)) :
  let v := Fallback.getBatteryInfo battery powerSupply in
  (forall b, primary_present battery b -> v = coalesce (percent b) Null)
  /\ ((forall b, ~ primary_present battery b) ->
      battery <> Rejected ->
      forall pv, secondary_percent powerSupply pv -> v = pv)
  /\ ((forall b, ~ primary_present battery b) ->
      (forall pv, ~ secondary_percent powerSupply pv) -> v = Null)
  /\ (battery = Rejected -> v = Null)
  /\ (v = Null
      \/ (exists b, battery = Resolved (Some b) /\ v = percent b)
      \/ (exists ps, powerSupply = Resolved (Some ps) /\ v = ps_percent ps)).
Proof.
  intros v. subst v. unfold Fallback.getBatteryInfo.
  destruct battery as [[b|]|].
  - destruct (truthy (hasbattery b)
              || num_gt (ToNumber (percent b)) (Fin 0)
              || num_gt (ToNumber (maxcapacity b)) (Fin 0))%bool eqn:E.
    + assert (Hp : primary_present (Resolved (Some b)) b).
      { split; [reflexivity|].
        apply orb_true_iff in E. destruct E as [E|E]; [|tauto].
        apply orb_true_iff in E. tauto. }
      repeat split.
      * intros b' [Hb' _]. injection Hb' as <-. reflexivity.
      * intros Hno. destruct (Hno b Hp).
      * intros Hno. destruct (Hno b Hp).
      * discriminate.
      * cbn. unfold coalesce. destruct (nullish (percent b)); eauto.
    + assert (Hno : forall b', ~ primary_present (Resolved (Some b)) b').
      { intros b' [Hb' H]. injection Hb' as <-.
        apply orb_false_iff in E. destruct E as [E E3].
        apply orb_false_iff in E. destruct E as [E1 E2].
        rewrite E1, E2, E3 in H. destruct H as [H|[H|H]]; discriminate. }
      repeat split.
      * intros b' Hb'. destruct (Hno b' Hb').
      * intros _ _ pv (ps & -> & Ht & ->). cbn. now rewrite Ht.
      * intros _ Hn. destruct powerSupply as [[ps|]|]; cbn; try reflexivity.
        destruct (truthy (ps_percent ps)) eqn:Ht; [|reflexivity].
        destruct (Hn (ps_percent ps)). exists ps. auto.
      * discriminate.
      * destruct powerSupply as [[ps|]|]; cbn; auto.
        destruct (truthy (ps_percent ps)); eauto.
  - repeat split.
    + intros b [Hb _]. discriminate Hb.
    + intros _ _ pv (ps & -> & Ht & ->). cbn. now rewrite Ht.
    + intros _ Hn. destruct powerSupply as [[ps|]|]; cbn; try reflexivity.
      destruct (truthy (ps_percent ps)) eqn:Ht; [|reflexivity].
      destruct (Hn (ps_percent ps)). exists ps. auto.
    + discriminate.
    + destruct powerSupply as [[ps|]|]; cbn; auto.
      destruct (truthy (ps_percent ps)); eauto.
  - repeat split; auto.
    + intros b [Hb _]. discriminate Hb.
    + intros _ H. now destruct H.
Qed.

Lemma getBatteryInfo_fallback_cases_witness :
  primary_present (Resolved (Some unflagged_battery)) unflagged_battery
  /\ Fallback.getBatteryInfo (Resolved (Some unflagged_battery)) Rejected
     = Num (Fin 50).
Proof.
  assert (H : primary_present (Resolved (Some unflagged_battery)) unflagged_battery)
    by (split; [reflexivity | right; left; reflexivity]).
  split; [exact H|].
  exact (proj1 (getBatteryInfo_fallback_cases
                  (Resolved (Some unflagged_battery)) Rejected)
               unflagged_battery H).
Defined.

(** C3 fails as stated. With a battery flagged present whose percent is
    missing, [Fallback.getBatteryInfo] gives [null], and does not ask the
    power supply; [Mock.getBatteryInfo] makes a reading up when no battery
    is signalled; [ServerCjs.getBatteryInfo] looks at the flag alone. *)
Lemma getBatteryInfo_not_exactly_when_signalled :
  (primary_signals battery_without_percent
   /\ Fallback.getBatteryInfo (Resolved (Some battery_without_percent))
        (Resolved (Some {| ps_percent := Num (Fin 50) |})) = Null)
  /\ (~ primary_signals no_battery
      /\ ServerCjs.bi_percent
           (Mock.getBatteryInfo (Resolved (Some no_battery)) (1 # 2) (3 # 4))
         = Num (Fin 80))
  /\ (primary_signals unflagged_battery
      /\ ServerCjs.bi_percent
           (ServerCjs.getBatteryInfo (Resolved (Some unflagged_battery)))
         = Str "N/A").
Proof.
  repeat split.
  - left. reflexivity.
  - intros [H|[H|H]]; discriminate H.
  - right. left. reflexivity.
Qed.

(** ** Live query and scheduled logger *)

(** C2, as the code has it. In the robust server GET /api/stats and the
    logger each compute cpu and ram from the readings by the same
    expressions, so the values agree, and ram is taken from the active
    memory. In [server.cjs] GET /api/resource and the logger both call
    [getSystemInfo], whose memory is taken from the used memory. *)
Theorem live_and_logger_agree {rt : Runtime} :
  (forall cpuLoad mem battery fsSize graphics,
      exists s,
        Robust.api_stats
          (Resolved {| Robust.sp_cpuLoad := cpuLoad; Robust.sp_mem := mem;
                       Robust.sp_battery := battery; Robust.sp_fsSize := fsSize;
                       Robust.sp_graphics := graphics |}) = Json s
        /\ let '(cpuVal, ramVal, _) :=
             Robust.cron_values {| Robust.cp_cpu := cpuLoad; Robust.cp_mem := mem;
                                   Robust.cp_battery := battery |} in
           cpuVal = Robust.cpu s /\ ramVal = Robust.ram s)
  /\ (forall t u u' a cpuLoad battery,
        let '(_, ramVal, _) :=
          Robust.cron_values
            {| Robust.cp_cpu := cpuLoad;
               Robust.cp_mem := Some {| m_total := t; m_used := u; m_active := a |};
               Robust.cp_battery := battery |} in
        let '(_, ramVal', _) :=
          Robust.cron_values
            {| Robust.cp_cpu := cpuLoad;
               Robust.cp_mem := Some {| m_total := t; m_used := u'; m_active := a |};
               Robust.cp_battery := battery |} in
        ramVal = ramVal')
  /\ (forall cpu mem battery ts file,
        ServerCjs.api_resource cpu mem battery
        = Json (ServerCjs.getSystemInfo cpu mem battery)
        /\ exists logs,
            ServerCjs.cron_tick ts cpu mem battery file
            = ServerCjs.Entries
                (logs ++ [{| ServerCjs.timestamp := ts;
                             ServerCjs.info := ServerCjs.getSystemInfo cpu mem battery |}]))
  /\ (forall cpu t u a a' battery,
        ServerCjs.memory
          (ServerCjs.getSystemInfo cpu
             (Resolved (Some {| m_total := t; m_used := u; m_active := a |})) battery)
        = ServerCjs.memory
            (ServerCjs.getSystemInfo cpu
               (Resolved (Some {| m_total := t; m_used := u; m_active := a' |})) battery)).
Proof.
  split; [|split; [|split]].
  - intros. eexists. split; [reflexivity|]. cbn. split; reflexivity.
  - intros. cbn. reflexivity.
  - intros. split; [reflexivity|].
    exists (match file with ServerCjs.Entries l => l | _ => [] end). reflexivity.
  - intros. unfold ServerCjs.getSystemInfo, ServerCjs.system_info.
    destruct cpu as [c|]; [|reflexivity].
    destruct (call_toFixed2 (currentLoad c)); reflexivity.
Qed.

(** C2 fails as stated. For one set of readings (half of the memory used, a
    quarter of it active) the ram of GET /api/stats is 25 while the memory
    the logger of [server.cjs] writes is the string 50.00; the same holds
    between GET /api/stats and the logger of the mock-battery server. *)
Lemma live_and_logger_disagree :
  (exists s entry,
      @Robust.api_stats hundredths_runtime
        (Resolved {| Robust.sp_cpuLoad := load_12; Robust.sp_mem := Some mem_half_used;
                     Robust.sp_battery := Some no_battery; Robust.sp_fsSize := None;
                     Robust.sp_graphics := None |}) = Json s
      /\ @ServerCjs.cron_tick hundredths_runtime "2025-01-01T00:00:00.000Z"
           (Resolved load_12) (Resolved (Some mem_half_used))
           (Resolved (Some no_battery)) ServerCjs.NoFile
         = ServerCjs.Entries [entry]
      /\ Robust.ram s = Num (Fin 25)
      /\ ServerCjs.memory (ServerCjs.info entry) = Str "50.00"
      /\ ToNumber (Robust.ram s) <> ToNumber (ServerCjs.memory (ServerCjs.info entry)))
  /\ (let '(_, ram, _) :=
        @Mock.stats_values hundredths_runtime load_12 (Some mem_half_used)
          (Some no_battery) 0 in
      let info :=
        @Mock.getSystemInfo hundredths_runtime (Resolved load_12)
          (Resolved (Some mem_half_used)) (Resolved (Some no_battery)) 0 0 in
      ram = Num (Fin 25) /\ ServerCjs.memory info = Str "50.00"
      /\ ToNumber ram <> ToNumber (ServerCjs.memory info)).
Proof.
  split.
  - eexists. eexists. split; [reflexivity|]. split; [reflexivity|].
    split; [reflexivity|]. split; [reflexivity|].
    vm_compute. discriminate.
  - vm_compute. repeat split; discriminate.
Qed.

(** ** Numerals: what is written is what is read *)

Local Open Scope string_scope.


Lemma scan_string_of_uint (d : Decimal.uint) (rest : string) (acc : N) (k : nat) :
  scan_digits 10 (NilEmpty.string_of_uint d ++ rest) acc k
  = scan_digits 10 rest (uint_value d acc) (k + Decimal.nb_digits d).
Proof.
  revert acc k.
  induction d; intros acc k; cbn [NilEmpty.string_of_uint append uint_value
                                   Decimal.nb_digits];
    [now rewrite Nat.add_0_r | ..];
    cbn [scan_digits]; (change (digit_val 10 _) with (Some 0%N)
                        || change (digit_val 10 _) with (Some 1%N)
                        || change (digit_val 10 _) with (Some 2%N)
                        || change (digit_val 10 _) with (Some 3%N)
                        || change (digit_val 10 _) with (Some 4%N)
                        || change (digit_val 10 _) with (Some 5%N)
                        || change (digit_val 10 _) with (Some 6%N)
                        || change (digit_val 10 _) with (Some 7%N)
                        || change (digit_val 10 _) with (Some 8%N)
                        || change (digit_val 10 _) with (Some 9%N));
    cbv iota; rewrite IHd; now rewrite Nat.add_succ_r.
Qed.

Lemma uint_value_pos (d : Decimal.uint) (p : positive) :
  uint_value d (Npos p) = Npos (Pos.of_uint_acc d p).
Proof.
  revert p. induction d; intros p; cbn [uint_value Pos.of_uint_acc];
    try reflexivity;
    match goal with
    | |- uint_value _ ?a = _ =>
        match goal with
        | |- _ = Npos (Pos.of_uint_acc _ ?b) =>
            replace a with (Npos b) by lia
        end
    end; apply IHd.
Qed.

Lemma uint_value_0 (d : Decimal.uint) : uint_value d 0 = Pos.of_uint d.
Proof.
  induction d; cbn [uint_value Pos.of_uint]; try reflexivity;
    try (exact IHd); apply uint_value_pos.
Qed.

Lemma uint_value_to_uint (n : N) : uint_value (N.to_uint n) 0 = n.
Proof. rewrite uint_value_0. apply (DecimalN.Unsigned.of_to n). Qed.

Lemma append_assoc (a b c : string) : (a ++ b) ++ c = a ++ (b ++ c).
Proof. induction a; cbn; [reflexivity | now rewrite IHa]. Qed.

Lemma append_empty_r (s : string) : s ++ "" = s.
Proof. induction s; cbn; [reflexivity | now rewrite IHs]. Qed.

(** Reading the digits of [n] gives [n], and at least one digit. *)
Lemma scan_decimal (n : N) (rest : string) :
  exists k : nat,
    scan_digits 10 (decimal n ++ rest) 0 0 = scan_digits 10 rest n (S k).
Proof.
  unfold decimal. rewrite scan_string_of_uint, uint_value_to_uint. cbn [Nat.add].
  destruct (Decimal.nb_digits (N.to_uint n)) eqn:E; [|eauto].
  exfalso. destruct n as [|p]; [discriminate E|].
  cbn [N.to_uint] in E.
  pose proof (DecimalPos.Unsigned.to_uint_nonnil p) as Hn.
  destruct (Pos.to_uint p); [now apply Hn | discriminate E ..].
Qed.

(** The numeral of a number starts with a digit. *)
Lemma decimal_head (n : N) :
  exists (c : ascii) (r : string),
    decimal n = String c r
    /\ is_ws c = false /\ c <> "-"%char /\ c <> "+"%char /\ c <> "I"%char
    /\ c <> "."%char
    /\ exists d : N, digit_val 10 c = Some d.
Proof.
  unfold decimal.
  assert (Hn : N.to_uint n <> Decimal.Nil).
  { destruct n as [|p]; [discriminate|].
    apply DecimalPos.Unsigned.to_uint_nonnil. }
  destruct (N.to_uint n); [now destruct Hn | ..];
    cbn [NilEmpty.string_of_uint]; do 2 eexists;
    (split; [reflexivity|]);
    repeat split; try discriminate; eexists; reflexivity.
Qed.

Lemma parseInt10_decimal (n : N) :
  parseInt10 (decimal n) = Fin (inject_Z (Z.of_N n)).
Proof.
  unfold parseInt10.
  destruct (decimal_head n) as (c & r & E & Hws & Hm & Hp & _ & _ & _).
  assert (Ht : trimStart (decimal n) = decimal n).
  { rewrite E. cbn. now rewrite Hws. }
  rewrite Ht.
  assert (Hs : (match decimal n with
                | String "-" r' => (true, r')
                | String "+" r' => (false, r')
                | _ => (false, decimal n)
                end) = (false, decimal n)).
  { rewrite E. clear - Hm Hp.
    destruct c as [[] [] [] [] [] [] [] []]; try reflexivity;
      [now destruct Hp | now destruct Hm]. }
  rewrite Hs.
  destruct (scan_decimal n "") as [k Hk]. rewrite append_empty_r in Hk.
  rewrite Hk. reflexivity.
Qed.

(** ** The last lines of the log *)

Local Open Scope list_scope.

Lemma Qred_inject_Z (z : Z) : Qred (inject_Z z) = inject_Z z.
Proof. apply Qred_identity. cbn. apply Z.gcd_1_r. Qed.

(** [all.slice(-n)] for a positive integer [n]: all but the first
    [length - n] elements. *)
Lemma slice_from_neg {A : Type} (n : positive) (l : list A) :
  slice_from (num_neg (Fin (inject_Z (Zpos n)))) l
  = skipn (List.length l - Pos.to_nat n) l.
Proof.
  unfold slice_from, num_neg. f_equal.
  change (- inject_Z (Zpos n))%Q with (inject_Z (Zneg n)).
  rewrite Qred_inject_Z. unfold slice_start. cbn [inject_Z Qnum Qden].
  rewrite Z.quot_1_r. cbn [Z.ltb Z.compare]. lia.
Qed.

Lemma skipn_suffix {A : Type} (k : nat) (l : list A) :
  exists older, l = older ++ skipn k l.
Proof. exists (firstn k l). symmetry. apply firstn_skipn. Qed.

Local Open Scope string_scope.

Lemma trimStart_length (s : string) :
  (String.length (trimStart s) <= String.length s)%nat.
Proof.
  induction s as [|c r IH]; cbn; [lia|].
  destruct (is_ws c); cbn; lia.
Qed.

Lemma trimEnd_length (s : string) :
  (String.length (trimEnd s) <= String.length s)%nat.
Proof.
  induction s as [|c r IH]; cbn; [lia|].
  destruct (trimEnd r); [destruct (is_ws c)|]; cbn in *; lia.
Qed.

(** A non-empty string that trimming leaves alone starts with a character
    that is not white space, and [trimEnd] leaves it alone too. *)
Lemma trim_fixed (s : string) :
  s <> "" -> trim s = s ->
  trimEnd s = s /\ exists c r, s = String c r /\ is_ws c = false.
Proof.
  intros Hne Ht. destruct s as [|c r]; [now destruct Hne|].
  destruct (is_ws c) eqn:E.
  - exfalso. unfold trim in Ht. cbn [trimStart] in Ht. rewrite E in Ht.
    pose proof (trimEnd_length (trimStart r)) as H1.
    pose proof (trimStart_length r) as H2.
    rewrite Ht in H1. cbn in H1. lia.
  - unfold trim in Ht. cbn [trimStart] in Ht. rewrite E in Ht. eauto.
Qed.

Lemma trimEnd_app (a b : string) :
  trimEnd (a ++ b)
  = match trimEnd b with "" => trimEnd a | String _ _ => a ++ trimEnd b end.
Proof.
  induction a as [|c a IH]; cbn [append trimEnd].
  - destruct (trimEnd b); reflexivity.
  - rewrite IH. destruct (trimEnd b) as [|c2 r2]; [reflexivity|].
    destruct a; reflexivity.
Qed.

Lemma split_lines_single (l : string) :
  has_newline l = false -> split_lines l = (l :: nil)%list.
Proof.
  induction l as [|c l IH]; cbn; [reflexivity|].
  intros H. apply orb_false_iff in H. destruct H as [Hc Hl].
  rewrite Hc, (IH Hl). reflexivity.
Qed.

Lemma split_lines_app (l rest : string) :
  has_newline l = false ->
  split_lines (l ++ String newline rest) = (l :: split_lines rest)%list.
Proof.
  induction l as [|c l IH]; cbn [append split_lines has_newline].
  - change (Ascii.eqb newline newline) with true. reflexivity.
  - intros H. apply orb_false_iff in H. destruct H as [Hc Hl].
    rewrite Hc, (IH Hl). reflexivity.
Qed.


Lemma log_after_content (ls : list string) (c : string) :
  fold_left (fun f line => appendLogAsync line f) ls (Some c)
  = Some (c ++ String.concat "" (map (fun l => l ++ String newline "") ls)).
Proof.
  revert c. induction ls as [|l r IH]; intros c; cbn [fold_left map].
  - cbn. now rewrite append_empty_r.
  - unfold appendLogAsync at 2. rewrite IH. f_equal.
    rewrite append_assoc. f_equal.
    destruct r; cbn; [now rewrite append_empty_r | reflexivity].
Qed.

Lemma concat_lines_join (l : string) (r : list string) :
  String.concat "" (map (fun l => l ++ String newline "") (l :: r)%list)
  = join_lines (l :: r)%list ++ String newline "".
Proof.
  revert l. induction r as [|l2 r IH]; intros l; [reflexivity|].
  change (String.concat "" (map (fun l => l ++ String newline "") (l :: l2 :: r)%list))
    with ((l ++ String newline "")
          ++ String.concat "" (map (fun l => l ++ String newline "") (l2 :: r)%list)).
  rewrite IH. cbn [join_lines]. rewrite !append_assoc. reflexivity.
Qed.

Lemma trim_join_lines (l : string) (r : list string) :
  Forall log_line (l :: r)%list ->
  trim (join_lines (l :: r)%list ++ String newline "") = join_lines (l :: r)%list.
Proof.
  intros H.
  assert (Hstart : trimStart (join_lines (l :: r)%list ++ String newline "")
                   = join_lines (l :: r)%list ++ String newline "").
  { inversion H as [|? ? (Hne & _ & Ht) _]; subst.
    destruct (trim_fixed l Hne Ht) as (_ & c & l' & -> & Hc).
    destruct r; cbn; now rewrite Hc. }
  unfold trim. rewrite Hstart. rewrite trimEnd_app.
  change (trimEnd (String newline "")) with "".
  revert l H Hstart. induction r as [|l2 r IH]; intros l H _.
  - inversion H as [|? ? (Hne & _ & Ht) _]; subst.
    apply (trim_fixed l Hne Ht).
  - inversion H as [|? ? _ H2]; subst.
    change (join_lines (l :: l2 :: r)%list)
      with (l ++ String newline (join_lines (l2 :: r)%list)).
    change (l ++ String newline (join_lines (l2 :: r)%list))
      with (l ++ (String newline "" ++ join_lines (l2 :: r)%list)).
    rewrite <- append_assoc, trimEnd_app.
    assert (E : trimEnd (join_lines (l2 :: r)%list) = join_lines (l2 :: r)%list).
    { apply IH; [exact H2|].
      inversion H2 as [|? ? (Hne & _ & Ht) _]; subst.
      destruct (trim_fixed l2 Hne Ht) as (_ & c & l' & -> & Hc).
      destruct r; cbn; now rewrite Hc. }
    rewrite E.
    assert (Hn : join_lines (l2 :: r)%list <> "").
    { inversion H2 as [|? ? (Hne & _ & _) _]; subst.
      destruct l2; [now destruct Hne|]. destruct r; discriminate. }
    destruct (join_lines (l2 :: r)%list); [now destruct Hn | reflexivity].
Qed.

Lemma split_join_lines (ls : list string) :
  ls <> nil -> Forall log_line ls -> split_lines (join_lines ls) = ls.
Proof.
  induction ls as [|l r IH]; intros Hne H; [now destruct Hne|].
  inversion H as [|? ? (_ & Hl & _) Hr]; subst.
  destruct r as [|l2 r].
  - apply split_lines_single, Hl.
  - change (join_lines (l :: l2 :: r)%list)
      with (l ++ String newline (join_lines (l2 :: r)%list)).
    rewrite (split_lines_app _ _ Hl), IH; [reflexivity | discriminate | exact Hr].
Qed.

(** What GET /api/logs reads from a log written line by line. *)
Lemma log_after_lines (l : string) (r : list string) :
  Forall log_line (l :: r)%list ->
  exists content : string,
    log_after (l :: r)%list = Some content
    /\ split_lines (trim content) = (l :: r)%list.
Proof.
  intros H. unfold log_after. cbn [fold_left].
  unfold appendLogAsync at 2. cbn [append].
  rewrite log_after_content. eexists. split; [reflexivity|].
  replace ((l ++ String newline "")
           ++ String.concat "" (map (fun l0 => l0 ++ String newline "") r))
    with (String.concat "" (map (fun l0 => l0 ++ String newline "") (l :: r)%list)).
  - rewrite concat_lines_join, (trim_join_lines l r H).
    apply split_join_lines; [discriminate | exact H].
  - destruct r; cbn; [now rewrite append_empty_r | reflexivity].
Qed.

Local Open Scope list_scope.

(** C5. For a positive integer [n] and any content of the log file,
    GET /api/logs?n=[n] replies with the last [n] lines of the log (all of
    them when there are fewer): at most [n] lines, a suffix of the log in
    its order. Without the parameter it replies with the last 200 lines.
    When there is no log file it replies with the empty list. On a log
    written by appending lines, the reply is the last [n] lines appended,
    the most recent one last. *)
Theorem api_logs_recent (content : string) (n : positive) :
  let all := split_lines (trim content) in
  (exists lines older,
      Robust.api_logs (Some content) (Some (decimal (Npos n))) = Json lines
      /\ all = older ++ lines
      /\ (List.length lines <= Pos.to_nat n)%nat
      /\ List.length lines = Nat.min (Pos.to_nat n) (List.length all))
  /\ (exists lines older,
         Robust.api_logs (Some content) None = Json lines
         /\ all = older ++ lines
         /\ List.length lines = Nat.min 200 (List.length all))
  /\ (forall query_n, Robust.api_logs None query_n = Json [])
  /\ (forall ls : list string,
        Forall log_line ls ->
        Robust.api_logs (log_after ls) (Some (decimal (Npos n)))
        = Json (skipn (List.length ls - Pos.to_nat n) ls)).
Proof.
  intros all. split; [|split; [|split]].
  - unfold Robust.api_logs. rewrite parseInt10_decimal.
    change (or_else (Num (Fin (inject_Z (Z.of_N (Npos n))))) (Num (Fin 200)))
      with (Num (Fin (inject_Z (Zpos n)))).
    cbn [ToNumber]. fold all. rewrite slice_from_neg.
    destruct (skipn_suffix (List.length all - Pos.to_nat n) all) as [older Ho].
    exists (skipn (List.length all - Pos.to_nat n) all), older.
    split; [reflexivity|]. split; [exact Ho|].
    rewrite length_skipn. lia.
  - unfold Robust.api_logs.
    change (or_else (Num (parseInt10 "undefined")) (Num (Fin 200)))
      with (Num (Fin (inject_Z 200))).
    cbn [ToNumber]. fold all. rewrite (slice_from_neg 200).
    destruct (skipn_suffix (List.length all - Pos.to_nat 200) all) as [older Ho].
    exists (skipn (List.length all - Pos.to_nat 200) all), older.
    split; [reflexivity|]. split; [exact Ho|].
    rewrite length_skipn. change (Pos.to_nat 200) with 200%nat. lia.
  - reflexivity.
  - intros [|l r] H; [reflexivity|].
    destruct (log_after_lines l r H) as (c & -> & Hc).
    unfold Robust.api_logs. rewrite parseInt10_decimal.
    change (or_else (Num (Fin (inject_Z (Z.of_N (Npos n))))) (Num (Fin 200)))
      with (Num (Fin (inject_Z (Zpos n)))).
    cbn [ToNumber]. rewrite Hc, slice_from_neg. reflexivity.
Qed.

Lemma api_logs_recent_witness :
  Forall log_line two_log_lines
  /\ Robust.api_logs (log_after two_log_lines) (Some "1")
     = Json ["[1/1/2025, 10:01:00 AM] CPU:3% RAM:26.5% Battery:80"%string].
Proof.
  assert (H : Forall log_line two_log_lines).
  { repeat constructor; try discriminate; reflexivity. }
  split; [exact H|].
  exact (proj2 (proj2 (proj2 (api_logs_recent EmptyString 1))) two_log_lines H).
Defined.

(** ** [toFixed(2)] read back as a Number *)

Local Open Scope string_scope.

Ltac digit_cases d H :=
  let E := fresh "E" in
  assert (E : (d = 0 \/ d = 1 \/ d = 2 \/ d = 3 \/ d = 4 \/ d = 5 \/ d = 6
               \/ d = 7 \/ d = 8 \/ d = 9)%N) by lia;
  clear H; repeat (destruct E as [E|E]; [subst d|]); [..|subst d].

Lemma digit_char_facts (d : N) :
  (d < 10)%N ->
  digit_val 10 (digit_char d) = Some d
  /\ is_ws (digit_char d) = false
  /\ radix_mark (digit_char d) = None.
Proof. intros H. digit_cases d H; repeat split; reflexivity. Qed.

Lemma trimEnd_keep (s : string) (c : ascii) :
  is_ws c = false -> trimEnd (s ++ String c "") = s ++ String c "".
Proof.
  intros Hc. induction s as [|a s IH]; cbn.
  - now rewrite Hc.
  - rewrite IH. destruct s; reflexivity.
Qed.

(** After a leading character, a digit or a point announces no radix. *)
Lemma parse_nondecimal_none (c c2 : ascii) (r : string) :
  radix_mark c2 = None -> parse_nondecimal (String c (String c2 r)) = None.
Proof.
  intros H. unfold parse_nondecimal.
  destruct c as [[] [] [] [] [] [] [] []]; try reflexivity.
  now rewrite H.
Qed.

(** The second character of a numeral followed by a point. *)
Lemma decimal_point_second (n : N) (rest : string) :
  exists (c c2 : ascii) (r : string),
    decimal n ++ String "." rest = String c (String c2 r)
    /\ radix_mark c2 = None.
Proof.
  unfold decimal.
  assert (Hn : N.to_uint n <> Decimal.Nil).
  { destruct n as [|p]; [discriminate|].
    apply DecimalPos.Unsigned.to_uint_nonnil. }
  destruct (N.to_uint n) as [|d|d|d|d|d|d|d|d|d|d]; [now destruct Hn | ..];
    cbn [NilEmpty.string_of_uint append];
    destruct d; cbn [NilEmpty.string_of_uint append];
    do 3 eexists; (split; [reflexivity|reflexivity]).
Qed.

Lemma fixed2_value (n : N) :
  ((inject_Z (Z.of_N (n / 100))
    + inject_Z (Z.of_N (10 * (10 * 0 + (n mod 100) / 10) + n mod 10))
      / inject_Z (10 ^ Z.of_nat 2)) * Qpower (inject_Z 10) 0
   == inject_Z (Z.of_N n) / 100)%Q.
Proof.
  assert (E : (10 * (10 * 0 + (n mod 100) / 10) + n mod 10 = n mod 100)%N).
  { pose proof (N.Div0.mod_mul_r n 10 10) as H. change (10 * 10)%N with 100%N in H.
    assert (H0 : (10 <> 0)%N) by discriminate.
    pose proof (N.div_mod (n mod 100) 10 H0) as H1.
    pose proof (N.mod_lt n 10 H0) as H2.
    pose proof (N.mod_lt (n mod 100) 10 H0) as H3.
    revert H H1 H2 H3.
    generalize ((n mod 100) mod 10)%N ((n mod 100) / 10)%N ((n / 10) mod 10)%N.
    generalize (n mod 100)%N (n mod 10)%N.
    intros. lia. }
  rewrite E.
  assert (E2 : Z.of_N n = (100 * Z.of_N (n / 100) + Z.of_N (n mod 100))%Z).
  { assert (H0 : (100 <> 0)%N) by discriminate.
    pose proof (N.div_mod n 100 H0) as H. revert H.
    generalize (n / 100)%N (n mod 100)%N. intros. lia. }
  rewrite E2, inject_Z_plus, inject_Z_mult.
  change (10 ^ Z.of_nat 2)%Z with 100%Z.
  change (Qpower (inject_Z 10) 0) with 1%Q.
  change (inject_Z 100) with 100%Q.
  field.
Qed.

(** The text of [toFixed(2)] for a non-negative number below 10^21 reads
    back as the number of hundredths it was rounded to. *)
Lemma StringToNumber_fixed2 (q : Q) :
  (0 <= q)%Q -> StringToNumber (fixed2_digits q) = Fin (round2 q).
Proof.
  intros Hq. unfold fixed2_digits, round2.
  set (z := Qfloor (q * 100 + (1 # 2))).
  assert (Hz : (0 <= z)%Z).
  { subst z. change 0%Z with (Qfloor 0). apply Qfloor_resp_le. lra. }
  set (n := Z.to_N z).
  assert (Hn : Z.of_N n = z) by (subst n; lia).
  set (F1 := ((n mod 100) / 10)%N). set (F2 := (n mod 10)%N).
  assert (H1 : (F1 < 10)%N).
  { subst F1. apply N.Div0.div_lt_upper_bound.
    change (10 * 10)%N with 100%N. apply N.mod_lt. discriminate. }
  assert (H2 : (F2 < 10)%N) by (subst F2; apply N.mod_lt; discriminate).
  destruct (digit_char_facts F1 H1) as (V1 & _ & _).
  destruct (digit_char_facts F2 H2) as (V2 & W2 & _).
  set (tail := String (digit_char F1) (String (digit_char F2) "")).
  set (s := decimal (n / 100) ++ String "." tail).
  (* trimming changes nothing *)
  destruct (decimal_head (n / 100)) as (c & r & E & Hws & Hm & Hp & HI & Hd & _).
  assert (Ht : trim s = s).
  { unfold trim.
    assert (Hs : trimStart s = s).
    { subst s. rewrite E. cbn. now rewrite Hws. }
    rewrite Hs. subst s tail.
    replace (decimal (n / 100) ++ String "." (String (digit_char F1) (String (digit_char F2) "")))
      with ((decimal (n / 100) ++ String "." (String (digit_char F1) ""))
              ++ String (digit_char F2) "")
      by (rewrite append_assoc; reflexivity).
    apply trimEnd_keep, W2. }
  unfold StringToNumber. rewrite Ht.
  destruct (decimal_point_second (n / 100) tail) as (c1 & c2 & r2 & Es & Hr).
  fold s in Es.
  assert (Hc1 : c1 = c).
  { subst s. rewrite E in Es. cbn in Es. now injection Es. }
  subst c1.
  assert (Hsel : (match s with
                  | "" => Fin 0
                  | String "+" r0 => parse_unsigned r0
                  | String "-" r0 => num_neg (parse_unsigned r0)
                  | _ => match parse_nondecimal s with
                         | Some n0 => n0
                         | None => parse_unsigned s
                         end
                  end) = parse_unsigned s).
  { rewrite Es. rewrite (parse_nondecimal_none _ _ _ Hr).
    clear - Hm Hp.
    destruct c as [[] [] [] [] [] [] [] []]; try reflexivity;
      [now destruct Hp | now destruct Hm]. }
  rewrite Hsel. unfold parse_unsigned.
  assert (Hinf : String.eqb s "Infinity" = false).
  { rewrite Es. cbn. apply Ascii.eqb_neq in HI. now rewrite HI. }
  rewrite Hinf.
  destruct (scan_decimal (n / 100) (String "." tail)) as [k Hk].
  fold s in Hk. rewrite Hk.
  cbn [scan_digits]. change (digit_val 10 ".") with (@None N). cbv iota.
  subst tail. cbn [scan_digits]. rewrite V1. cbn [scan_digits]. rewrite V2.
  cbn [scan_digits scan_exponent Nat.add].
  f_equal. apply Qred_complete. rewrite <- Hn. exact (fixed2_value n).
Qed.

Section ReadBack.
Context {rt : Runtime}.

Lemma toFixed2_nonneg (q : Q) :
  (0 <= q)%Q -> (q < inject_Z (10 ^ 21))%Q -> toFixed2 (Fin q) = fixed2_digits q.
Proof.
  intros H0 H1. unfold toFixed2.
  assert (Ha : Qabs q = q).
  { destruct q as [n d]. unfold Qle in H0. cbn in H0. cbn.
    rewrite Z.abs_eq by lia. reflexivity. }
  rewrite Ha.
  assert (Hb : Qle_bool (inject_Z (10 ^ 21)) q = false).
  { destruct (Qle_bool (inject_Z (10 ^ 21)) q) eqn:E; [|reflexivity].
    apply Qle_bool_iff in E. exfalso. apply (Qlt_not_le _ _ H1 E). }
  rewrite Hb.
  destruct (q ?= 0)%Q eqn:E; try reflexivity.
  apply Qlt_alt in E. exfalso. apply (Qlt_not_le _ _ E H0).
Qed.

(** [Number(x.toFixed(2))] is [x] rounded to hundredths. *)
Lemma Number_toFixed2 (q : Q) :
  (0 <= q)%Q -> (q < inject_Z (10 ^ 21))%Q ->
  ToNumber (Str (toFixed2 (Fin q))) = Fin (round2 q).
Proof.
  intros H0 H1. rewrite (toFixed2_nonneg q H0 H1). cbn [ToNumber].
  apply StringToNumber_fixed2, H0.
Qed.

End ReadBack.

Lemma round2_percentage (q : Q) :
  (0 <= q <= 100)%Q -> (0 <= round2 q <= 100)%Q.
Proof.
  intros [H0 H1]. unfold round2. rewrite Qred_correct.
  set (z := Qfloor (q * 100 + (1 # 2))).
  assert (Hz0 : (0 <= z)%Z).
  { subst z. change 0%Z with (Qfloor 0). apply Qfloor_resp_le. lra. }
  assert (Hz1 : (z <= 10000)%Z).
  { subst z. change 10000%Z with (Qfloor (10000 + (1 # 2))).
    apply Qfloor_resp_le. lra. }
  rewrite Zle_Qle in Hz0, Hz1.
  change (inject_Z 0) with 0%Q in Hz0. change (inject_Z 10000) with 10000%Q in Hz1.
  split.
  - apply Qle_shift_div_l; [reflexivity | lra].
  - apply Qle_shift_div_r; [reflexivity | lra].
Qed.

Lemma percent_of_part (a t : Q) :
  (0 <= a)%Q -> (a <= t)%Q -> (0 < t)%Q ->
  exists x : Q,
    num_mul (num_div (Fin a) (Fin t)) (Fin 100) = Fin x /\ (0 <= x <= 100)%Q.
Proof.
  intros H0 H1 H2. unfold num_div, num_mul.
  assert (Ht : Qeq_bool t 0 = false).
  { destruct (Qeq_bool t 0) eqn:E; [|reflexivity].
    apply Qeq_bool_iff in E. rewrite E in H2. discriminate H2. }
  rewrite Ht. eexists. split; [reflexivity|].
  rewrite Qred_correct, Qred_correct.
  assert (Hd0 : (0 <= a / t)%Q) by (apply Qle_shift_div_l; [assumption | lra]).
  assert (Hd1 : (a / t <= 1)%Q) by (apply Qle_shift_div_r; [assumption | lra]).
  split; lra.
Qed.

(** ** The percentages of GET /api/stats *)

(** C6. For a valid poll (a load between 0 and 100, an active memory between
    0 and a positive total) the cpu and ram of the Stats GET /api/stats
    returns are Numbers between 0 and 100. *)
Theorem api_stats_percentages {rt : Runtime} (poll : Robust.StatsPoll) :
  valid_load (Robust.sp_cpuLoad poll) ->
  valid_mem (Robust.sp_mem poll) ->
  exists s : Robust.Stats,
    Robust.api_stats (Resolved poll) = Json s
    /\ is_percentage (Robust.cpu s) /\ is_percentage (Robust.ram s).
Proof.
  intros (q & Hq & Hq0 & Hq1) (m & a & t & Hm & Ha & Ht & Ha0 & Hat & Ht0).
  eexists. split; [reflexivity|]. cbn [Robust.cpu Robust.ram]. split.
  - rewrite Hq. cbn [opt_toFixed2 coalesce nullish].
    exists (round2 q). split; [|apply round2_percentage; auto].
    f_equal. apply Number_toFixed2; [assumption|].
    eapply Qle_lt_trans; [exact Hq1 | reflexivity].
  - rewrite Hm. cbn [opt_field]. rewrite Ha, Ht. cbn [coalesce nullish ToNumber].
    destruct (percent_of_part a t Ha0 Hat Ht0) as (x & -> & Hx0 & Hx1).
    exists (round2 x). split; [|apply round2_percentage; auto].
    f_equal. apply Number_toFixed2; [assumption|].
    eapply Qle_lt_trans; [exact Hx1 | reflexivity].
Qed.

Lemma api_stats_percentages_witness :
  exists s : Robust.Stats,
    @Robust.api_stats hundredths_runtime
      (Resolved {| Robust.sp_cpuLoad := load_12; Robust.sp_mem := Some mem_half_used;
                   Robust.sp_battery := Some no_battery; Robust.sp_fsSize := None;
                   Robust.sp_graphics := None |}) = Json s
    /\ is_percentage (Robust.cpu s) /\ is_percentage (Robust.ram s).
Proof.
  apply (@api_stats_percentages hundredths_runtime).
  - exists (25 # 2). split; [reflexivity|]. split; discriminate.
  - exists mem_half_used, 25%Q, 100%Q. repeat split; discriminate.
Defined.

(** ** The CSV export *)

Local Open Scope string_scope.

(** The replacement the code makes is the doubling of every quote. *)
Lemma replace_quotes_double (s : string) : replace_quotes s = double_quotes s.
Proof.
  unfold double_quotes. induction s as [|c r IH]; [reflexivity|].
  cbn [replace_quotes list_ascii_of_string flat_map].
  destruct (Ascii.eqb c dquote); cbn; now rewrite IH.
Qed.

(** Reading a quoted field gives the field back, when the text behind the
    closing quote does not start with a quote. *)
Lemma read_quoted_body_replace (s rest : string) :
  match rest with String c _ => Ascii.eqb c dquote = false | EmptyString => True end ->
  read_quoted_body (replace_quotes s ++ String dquote rest) = Some (s, rest).
Proof.
  intros Hrest. induction s as [|c r IH].
  - cbn. destruct rest as [|c2 r2]; [reflexivity|]. now rewrite Hrest.
  - cbn [replace_quotes]. destruct (Ascii.eqb c dquote) eqn:E.
    + apply Ascii.eqb_eq in E. subst c.
      cbn -[read_quoted_body]. cbn [read_quoted_body].
      change (Ascii.eqb dquote dquote) with true. cbv iota.
      rewrite IH. reflexivity.
    + cbn [append read_quoted_body]. rewrite E, IH. reflexivity.
Qed.

Lemma csv_read_quote (s rest : string) :
  match rest with String c _ => Ascii.eqb c dquote = false | EmptyString => True end ->
  csv_read_quoted (csv_quote s ++ rest) = Some (s, rest).
Proof.
  intros H. unfold csv_quote, csv_read_quoted. cbn [append].
  change (Ascii.eqb dquote dquote) with true. cbv iota.
  rewrite append_assoc. cbn [append].
  rewrite <- replace_quotes_double. apply read_quoted_body_replace, H.
Qed.

Section CsvExport.
Context {rt : Runtime}.

(** A row of the process table is the pid, the quoted name, and the rest of
    the row, which starts with a comma. *)
Lemma csv_row_shape (p : Process) (row : string) :
  Robust.csv_row p = Some row ->
  name_writable p
  /\ exists after : string,
      row = ToString (p_pid p) ++ "," ++ csv_quote (name_text p) ++ String "," after.
Proof.
  unfold Robust.csv_row, name_writable, name_text, or_else.
  destruct (truthy (p_name p)) eqn:Ht.
  - destruct (p_name p) as [| |b|n|s]; try discriminate.
    intros H. injection H as <-. split; [now left|].
    eexists. unfold csv_quote. rewrite <- replace_quotes_double.
    cbn [append]. rewrite !append_assoc. cbn [append]. reflexivity.
  - intros H. injection H as <-. split; [now right|].
    assert (E : match p_name p with Str s => s | _ => "" end = "").
    { destruct (p_name p) as [| |b|n|s]; try reflexivity.
      destruct s; [reflexivity | discriminate Ht]. }
    rewrite E. eexists. cbn. reflexivity.
Qed.

Lemma csv_rows_concat (ps : list Process) (acc out : string) :
  Robust.csv_rows ps acc = Some out ->
  exists rows : list string,
    Forall2 (fun p row => Robust.csv_row p = Some row) ps rows
    /\ out = acc ++ String.concat "" rows.
Proof.
  revert acc. induction ps as [|p r IH]; intros acc; cbn [Robust.csv_rows].
  - intros H. injection H as <-. exists nil. split; [constructor|].
    cbn. now rewrite append_empty_r.
  - destruct (Robust.csv_row p) as [row|] eqn:E; [|discriminate].
    intros H. destruct (IH _ H) as (rows & HF & ->).
    exists (row :: rows). split; [constructor; assumption|].
    rewrite append_assoc. f_equal.
    destruct rows; cbn; [now rewrite append_empty_r | reflexivity].
Qed.

Lemma csv_rows_writable (ps : list Process) (acc : string) :
  Forall name_writable ps -> exists out, Robust.csv_rows ps acc = Some out.
Proof.
  intros H. revert acc. induction H as [|p r Hp Hr IH]; intros acc; cbn.
  - eauto.
  - assert (E : exists row, Robust.csv_row p = Some row).
    { unfold Robust.csv_row, or_else. destruct Hp as [Hp|Hp].
      - destruct (p_name p); try discriminate Hp.
        destruct (truthy (Str s)); eauto.
      - rewrite Hp. eauto. }
    destruct E as [row ->]. apply IH.
Qed.

End CsvExport.

(** C9. In a CSV export of GET /api/snapshot every row of the process
    table carries the process name as a quoted field: the name with each
    embedded quote character doubled, wrapped in quotes. The replacement
    the code makes is that doubling, and a reader of quoted CSV fields gets
    the name back from the row. *)
Theorem snapshot_csv_names_quoted {rt : Runtime} (query_fmt : option string)
  (time : string) (poll : Robust.SnapshotPoll) (csv : string) :
  Robust.api_snapshot query_fmt time (Resolved poll) = CsvAttachment csv ->
  let '(cpuVal, ramVal, batteryVal, topProcs) := Robust.snapshot_values poll in
  exists rows : list string,
    csv = Robust.csv_head time cpuVal ramVal batteryVal ++ String.concat "" rows
    /\ Forall2
         (fun p row =>
            replace_quotes (name_text p) = double_quotes (name_text p)
            /\ exists after : string,
                row = ToString (p_pid p) ++ "," ++ csv_quote (name_text p)
                      ++ String "," after
                /\ csv_read_quoted (csv_quote (name_text p) ++ String "," after)
                   = Some (name_text p, String "," after))
         topProcs rows.
Proof.
  unfold Robust.api_snapshot, Robust.snapshot_pdf, Robust.snapshot_csv.
  destruct (Robust.snapshot_values poll) as [[[cpuVal ramVal] batteryVal] topProcs].
  destruct (String.eqb (toLowerCase (query_or query_fmt "csv")) "pdf");
    [discriminate|].
  destruct (Robust.csv_rows topProcs (Robust.csv_head time cpuVal ramVal batteryVal))
    as [out|] eqn:E; [|discriminate].
  intros H. injection H as <-.
  destruct (csv_rows_concat _ _ _ E) as (rows & HF & ->).
  exists rows. split; [reflexivity|].
  eapply Forall2_impl; [|exact HF].
  intros p row Hrow. cbv beta in Hrow.
  split; [apply replace_quotes_double|].
  destruct (csv_row_shape p row Hrow) as (_ & after & ->).
  exists after. split; [reflexivity|].
  apply csv_read_quote. reflexivity.
Qed.

Lemma snapshot_csv_names_quoted_witness :
  exists csv : string,
    @Robust.api_snapshot hundredths_runtime None "2025-01-01T00:00:00.000Z"
      (Resolved snapshot_poll_quoted) = CsvAttachment csv
    /\ exists rows : list string,
        csv = @Robust.csv_head hundredths_runtime "2025-01-01T00:00:00.000Z"
                (Num (Fin (25 # 2))) (Num (Fin 25)) (Str "N/A")
              ++ String.concat "" rows
        /\ Forall2
             (fun p row =>
                replace_quotes (name_text p) = double_quotes (name_text p)
                /\ exists after : string,
                    row = @ToString hundredths_runtime (p_pid p) ++ ","
                          ++ csv_quote (name_text p) ++ String "," after
                    /\ csv_read_quoted (csv_quote (name_text p) ++ String "," after)
                       = Some (name_text p, String "," after))
             [process_quoted] rows.
Proof.
  eexists. split; [reflexivity|].
  exact (@snapshot_csv_names_quoted hundredths_runtime None
           "2025-01-01T00:00:00.000Z" snapshot_poll_quoted _ eq_refl).
Defined.

(** ** The format of a snapshot *)

Lemma lower_char_p (a : ascii) :
  lower_char a = "p"%char -> a = "p"%char \/ a = "P"%char.
Proof.
  destruct a as [[] [] [] [] [] [] [] []]; vm_compute; intros H;
    try discriminate H; auto.
Qed.

Lemma lower_char_d (a : ascii) :
  lower_char a = "d"%char -> a = "d"%char \/ a = "D"%char.
Proof.
  destruct a as [[] [] [] [] [] [] [] []]; vm_compute; intros H;
    try discriminate H; auto.
Qed.

Lemma lower_char_f (a : ascii) :
  lower_char a = "f"%char -> a = "f"%char \/ a = "F"%char.
Proof.
  destruct a as [[] [] [] [] [] [] [] []]; vm_compute; intros H;
    try discriminate H; auto.
Qed.

(** Lower-casing gives [pdf] exactly on its eight spellings. *)
Lemma toLowerCase_pdf (s : string) : toLowerCase s = "pdf" <-> In s pdf_spellings.
Proof.
  split.
  - destruct s as [|a [|b [|c [|d r]]]]; cbn [toLowerCase]; intros H;
      try discriminate H.
    injection H as Ha Hb Hc.
    apply lower_char_p in Ha. apply lower_char_d in Hb. apply lower_char_f in Hc.
    destruct Ha as [-> | ->], Hb as [-> | ->], Hc as [-> | ->]; cbn; tauto.
  - intros H. cbn in H.
    repeat (destruct H as [<-|H]; [reflexivity|]). destruct H.
Qed.

Lemma asks_for_pdf_iff (query_fmt : option string) :
  asks_for_pdf query_fmt <-> toLowerCase (query_or query_fmt "csv") = "pdf".
Proof.
  unfold asks_for_pdf. split.
  - intros (s & -> & H). apply toLowerCase_pdf in H.
    destruct s; [discriminate H | exact H].
  - destruct query_fmt as [[|c r]|]; cbn [query_or]; intros H;
      try discriminate H.
    exists (String c r). split; [reflexivity|]. apply toLowerCase_pdf, H.
Qed.

(** C10. GET /api/snapshot lower-cases the [fmt] parameter before it
    compares it: a parameter that spells [pdf] in any letter case gives the
    document export, and every other one, a missing or empty one included,
    takes the CSV branch, which gives the CSV export whenever every process
    name can be written, and never a document. *)
Theorem api_snapshot_format {rt : Runtime} (query_fmt : option string)
  (time : string) (poll : Robust.SnapshotPoll) :
  (asks_for_pdf query_fmt <-> toLowerCase (query_or query_fmt "csv") = "pdf")
  /\ (asks_for_pdf query_fmt ->
      exists doc : list doc_op,
        Robust.api_snapshot query_fmt time (Resolved poll) = PdfAttachment doc
        /\ Robust.snapshot_pdf time poll = PdfAttachment doc)
  /\ (~ asks_for_pdf query_fmt ->
      Robust.api_snapshot query_fmt time (Resolved poll)
      = Robust.snapshot_csv time poll
      /\ (forall doc, Robust.snapshot_csv time poll <> PdfAttachment doc)
      /\ (let '(_, _, _, topProcs) := Robust.snapshot_values poll in
          Forall name_writable topProcs ->
          exists csv : string,
            Robust.api_snapshot query_fmt time (Resolved poll) = CsvAttachment csv)).
Proof.
  split; [apply asks_for_pdf_iff|]. split.
  - intros H. apply asks_for_pdf_iff in H.
    unfold Robust.api_snapshot. rewrite H. cbn [String.eqb Ascii.eqb].
    change ("pdf" =? "pdf") with true. cbv iota.
    unfold Robust.snapshot_pdf.
    destruct (Robust.snapshot_values poll) as [[[cpuVal ramVal] batteryVal] topProcs].
    eexists. split; reflexivity.
  - intros H.
    assert (E : String.eqb (toLowerCase (query_or query_fmt "csv")) "pdf" = false).
    { destruct (String.eqb (toLowerCase (query_or query_fmt "csv")) "pdf") eqn:E;
        [|reflexivity].
      apply String.eqb_eq in E. apply asks_for_pdf_iff in E. contradiction. }
    unfold Robust.api_snapshot. rewrite E. split; [reflexivity|].
    unfold Robust.snapshot_csv.
    destruct (Robust.snapshot_values poll) as [[[cpuVal ramVal] batteryVal] topProcs].
    split.
    + intros doc.
      destruct (Robust.csv_rows topProcs _); discriminate.
    + intros Hw.
      destruct (csv_rows_writable topProcs
                  (Robust.csv_head time cpuVal ramVal batteryVal) Hw) as [out ->].
      eauto.
Qed.

Lemma api_snapshot_format_witness :
  asks_for_pdf (Some "PDF")
  /\ (exists doc : list doc_op,
         @Robust.api_snapshot hundredths_runtime (Some "PDF")
           "2025-01-01T00:00:00.000Z" (Resolved snapshot_poll_quoted)
         = PdfAttachment doc
         /\ @Robust.snapshot_pdf hundredths_runtime "2025-01-01T00:00:00.000Z"
              snapshot_poll_quoted = PdfAttachment doc)
  /\ ~ asks_for_pdf (Some "xml")
  /\ @Robust.api_snapshot hundredths_runtime (Some "xml")
       "2025-01-01T00:00:00.000Z" (Resolved snapshot_poll_quoted)
     = @Robust.snapshot_csv hundredths_runtime "2025-01-01T00:00:00.000Z"
         snapshot_poll_quoted.
Proof.
  assert (Hp : asks_for_pdf (Some "PDF")).
  { exists "PDF". split; [reflexivity|]. cbn. tauto. }
  assert (Hx : ~ asks_for_pdf (Some "xml")).
  { intros (s & Hs & Hin). injection Hs as <-. cbn in Hin.
    repeat (destruct Hin as [Hin|Hin]; [discriminate Hin|]). exact Hin. }
  split; [exact Hp|]. split; [|split; [exact Hx|]].
  - exact (proj1 (proj2 (@api_snapshot_format hundredths_runtime (Some "PDF")
                           "2025-01-01T00:00:00.000Z" snapshot_poll_quoted)) Hp).
  - exact (proj1 (proj2 (proj2 (@api_snapshot_format hundredths_runtime (Some "xml")
                                  "2025-01-01T00:00:00.000Z" snapshot_poll_quoted))
                    Hx)).
Defined.

(** ** Further facts and examples *)

Local Open Scope list_scope.

(** What [safeNum] makes of a few values: a numeral in a string and a
    boolean convert, anything that is not a finite Number gives 0. *)
Example safeNum_values :
  Robust.safeNum (Str "12.5") = Fin (25 # 2)
  /\ Robust.safeNum (Bool true) = Fin 1
  /\ Robust.safeNum (Str "abc") = Fin 0
  /\ Robust.safeNum (Num NaN) = Fin 0
  /\ Robust.safeNum (Num PosInf) = Fin 0
  /\ Robust.safeNum Undefined = Fin 0
  /\ Robust.safeNum Null = Fin 0.
Proof. repeat split; reflexivity. Qed.

(** GET /api/stats does not clamp: a load of 150 is a cpu of 150. *)
Example api_stats_no_clamp :
  exists s,
    @Robust.api_stats hundredths_runtime
      (Resolved {| Robust.sp_cpuLoad := {| currentLoad := Num (Fin 150) |};
                   Robust.sp_mem := Some mem_half_used;
                   Robust.sp_battery := None; Robust.sp_fsSize := None;
                   Robust.sp_graphics := None |}) = Json s
    /\ Robust.cpu s = Num (Fin 150) /\ Robust.battery s = Null.
Proof. eexists. split; [reflexivity|]. split; reflexivity. Qed.

(** The made-up percent of the mock-battery server is a whole number
    between 60 and 100. *)
Lemma mock_percent_range (r : Q) :
  (0 <= r)%Q -> (r < 1)%Q ->
  exists z : Z, Mock.mock_percent r = Num (Fin (inject_Z z)) /\ (60 <= z <= 100)%Z.
Proof.
  intros H0 H1. unfold Mock.mock_percent.
  change (num_add (num_sub (Fin 100) (Fin 60)) (Fin 1)) with (Fin 41).
  cbn [num_mul Math_floor num_add].
  set (z := Qfloor (Qred (r * 41))).
  exists (z + 60)%Z. split.
  - f_equal. f_equal. rewrite <- (Qred_inject_Z (z + 60)).
    apply Qred_complete. rewrite inject_Z_plus. reflexivity.
  - assert (Hz0 : (0 <= z)%Z).
    { subst z. change 0%Z with (Qfloor 0). apply Qfloor_resp_le.
      rewrite Qred_correct. lra. }
    assert (Hz1 : (z <= 40)%Z).
    { assert (Hlt : (z < 41)%Z); [|lia].
      subst z. rewrite Zlt_Qlt.
      eapply Qle_lt_trans; [apply Qfloor_le|].
      rewrite Qred_correct. change (inject_Z 41) with 41%Q. lra. }
    lia.
Qed.

Section OlderProcesses.
Context {rt : Runtime}.

(** In the power-supply-fallback server, a cpu field that is not a numeral
    is written as the text NaN, and the comparator gives NaN on it. *)
Lemma fallback_comparator_nan (x : ProcessSample) :
  s_cpu (Fallback.mapped_entry process_abc) = Str "NaN"
  /\ Fallback.by_cpu_desc (Fallback.mapped_entry process_abc) x = NaN
  /\ Fallback.by_cpu_desc x (Fallback.mapped_entry process_abc) = NaN.
Proof.
  split; [reflexivity|]. unfold Fallback.by_cpu_desc.
  change (ToNumber (s_cpu (Fallback.mapped_entry process_abc))) with NaN.
  split; [|reflexivity].
  destruct (ToNumber (s_cpu x)); reflexivity.
Qed.

Lemma fallback_mapped_numeric (l : list Process) :
  Forall plain_cpu l -> Forall numeric_cpu (map Fallback.mapped_entry l).
Proof.
  intros H. induction H as [|p r (q & Hq & H0 & H1) _ IH]; constructor; [|exact IH].
  exists (round2 q). unfold Fallback.mapped_entry. cbn [s_cpu]. rewrite Hq.
  apply Number_toFixed2; assumption.
Qed.

Lemma fallback_by_cpu_desc_key (a b : ProcessSample) :
  numeric_cpu a -> numeric_cpu b ->
  cmp_sign (Fallback.by_cpu_desc a b) = (cpu_number b ?= cpu_number a)%Q.
Proof.
  intros [qa Ha] [qb Hb]. unfold Fallback.by_cpu_desc, cpu_number.
  rewrite Ha, Hb. apply Qcompare_sub_0.
Qed.

(** X16. On process lists whose cpu fields are plain numbers, the older GET
    /api/processes gives at most five entries in descending order of the
    number its cpu text stands for, ties in their order of enumeration. *)
Lemma fallback_api_processes_top5 (procInfo : option Processes) :
  Forall plain_cpu (process_list procInfo) ->
  let mapped := map Fallback.mapped_entry (process_list procInfo) in
  exists top rest : list ProcessSample,
    Fallback.api_processes (Resolved procInfo) = Json top
    /\ (List.length top <= 5)%nat
    /\ Permutation (top ++ rest) mapped
    /\ StronglySorted (key_ge cpu_number) top
    /\ (forall a b, In a top -> In b rest -> key_ge cpu_number a b)
    /\ (forall c : Q, exists more,
          filter (fun e => Qeq_bool (cpu_number e) c) mapped
          = filter (fun e => Qeq_bool (cpu_number e) c) top ++ more).
Proof.
  intros Hp mapped.
  pose proof (fallback_mapped_numeric _ Hp) as Hn. fold mapped in Hn.
  set (sorted := array_sort Fallback.by_cpu_desc mapped).
  assert (Hs : StronglySorted (key_ge cpu_number) sorted).
  { apply (array_sort_sorted _ _ cpu_number numeric_cpu fallback_by_cpu_desc_key).
    exact Hn. }
  exists (firstn 5 sorted), (skipn 5 sorted). repeat split.
  - apply firstn_le_length.
  - rewrite firstn_skipn. apply array_sort_perm.
  - apply StronglySorted_firstn, Hs.
  - rewrite <- (firstn_skipn 5 sorted) in Hs.
    apply StronglySorted_app_inv in Hs. tauto.
  - intros c.
    rewrite <- (array_sort_stable _ _ cpu_number numeric_cpu
                  fallback_by_cpu_desc_key c mapped Hn).
    apply filter_firstn_prefix.
Qed.

End OlderProcesses.

(** Two ticks of the logger, then GET /api/logs?n=1: the second line. *)
Example cron_then_logs :
  let tick1 :=
    @Robust.cron_tick hundredths_runtime "1/1/2025, 10:00:00 AM"
      (Resolved {| Robust.cp_cpu := load_12; Robust.cp_mem := Some mem_half_used;
                   Robust.cp_battery := Some no_battery |}) None in
  let tick2 :=
    @Robust.cron_tick hundredths_runtime "1/1/2025, 10:01:00 AM"
      (Resolved {| Robust.cp_cpu := {| currentLoad := Num (Fin 3) |};
                   Robust.cp_mem := Some mem_half_used;
                   Robust.cp_battery :=
                     Some {| hasbattery := Bool true; percent := Num (Fin 80);
                             ischarging := Bool false;
                             maxcapacity := Num (Fin 0) |} |}) tick1 in
  Robust.api_logs tick2 (Some "1")
  = Json ["[1/1/2025, 10:01:00 AM] CPU:3% RAM:25% Battery:80"%string]
  /\ Robust.api_logs tick2 None
     = Json ["[1/1/2025, 10:00:00 AM] CPU:12.5% RAM:25% Battery:N/A"%string;
             "[1/1/2025, 10:01:00 AM] CPU:3% RAM:25% Battery:80"%string].
Proof. split; vm_compute; reflexivity. Qed.

(** A reply of GET /api/processes: six raw entries, one of them without a
    numeric cpu, give the five highest, the tie in its first order. *)
Example api_processes_reply :
  let raw (n : string) (c : value) :=
    {| p_pid := Undefined; p_name := Str n; p_command := Undefined;
       p_pcpu := c; p_cpu := Undefined; p_cpuPercent := Undefined;
       p_cpuUsage := Undefined; p_pmem := Undefined; p_mem := Undefined;
       p_memPercent := Undefined |} in
  let out (n : string) (c : Q) :=
    {| pid := Null; name := Str n; s_cpu := Num (Fin c); s_mem := Num (Fin 0) |} in
  Robust.api_processes
    (Resolved (Some {| list_ := Some [raw "a" (Num (Fin 1)); raw "b" (Str "abc");
                                      raw "c" (Num (Fin 7)); raw "d" (Num (Fin 1));
                                      raw "e" (Num (Fin (1006 # 1000)));
                                      raw "f" (Num (Fin 9))] |}))
  = Json [out "f" 9%Q; out "c" 7%Q; out "e" (101 # 100); out "a" 1%Q; out "d" 1%Q].
Proof. vm_compute. reflexivity. Qed.

(** * Properties of the rest of the code *)

(** ** The charts' window *)

Lemma lastn_short {A : Type} (n : nat) (l : list A) :
  (List.length l <= n)%nat -> lastn n l = l.
Proof.
  intros H. unfold lastn. replace (List.length l - n)%nat with 0%nat by lia.
  reflexivity.
Qed.

Lemma lastn_length {A : Type} (n : nat) (l : list A) :
  List.length (lastn n l) = Nat.min n (List.length l).
Proof. unfold lastn. rewrite length_skipn. lia. Qed.

Lemma lastn_snoc {A : Type} (n : nat) (l : list A) (x : A) :
  (1 <= n)%nat -> lastn n (lastn n l ++ [x]) = lastn n (l ++ [x]).
Proof.
  intros Hn. destruct (Nat.le_gt_cases (List.length l) n) as [H|H].
  - now rewrite (lastn_short n l H).
  - unfold lastn at 1 3. rewrite !length_app, lastn_length. cbn [List.length].
    replace (Nat.min n (List.length l) + 1 - n)%nat with 1%nat by lia.
    rewrite !skipn_app. unfold lastn. rewrite skipn_skipn, length_skipn.
    replace (1 - (List.length l - (List.length l - n)))%nat with 0%nat by lia.
    replace (List.length l + 1 - n - List.length l)%nat with 0%nat by lia.
    f_equal. f_equal. lia.
Qed.

Lemma tl_skipn {A : Type} (l : list A) : tl l = skipn 1 l.
Proof. destruct l; reflexivity. Qed.

(** One push on a chart that holds a window of at most 30 points. *)
Lemma pushChart_window (labels : list string) (data : list num)
  (label : string) (value : num) :
  List.length labels = List.length data ->
  Client.pushChart
    {| Client.labels := lastn 30 labels; Client.data := lastn 30 data |}
    label value
  = {| Client.labels := lastn 30 (labels ++ [label]);
       Client.data := lastn 30 (data ++ [value]) |}.
Proof.
  intros Hlen. unfold Client.pushChart. cbn [Client.labels Client.data].
  rewrite <- (lastn_snoc 30 labels label), <- (lastn_snoc 30 data value) by lia.
  rewrite length_app, lastn_length. cbn [List.length].
  destruct (Nat.ltb_spec 30 (Nat.min 30 (List.length labels) + 1)) as [H|H].
  - rewrite !tl_skipn. unfold lastn at 3 5.
    rewrite !length_app, !lastn_length. cbn [List.length].
    rewrite <- Hlen.
    replace (Nat.min 30 (List.length labels) + 1 - 30)%nat with 1%nat by lia.
    reflexivity.
  - rewrite !(lastn_short 30 (_ ++ _)); [reflexivity | |];
      rewrite length_app, lastn_length; cbn [List.length]; lia.
Qed.

(** X1. After any number of points pushed to an empty chart, the chart
    holds the last 30 of them (all of them when there are fewer), labels
    and values side by side and in the order they came. *)
Theorem push_all_window (points : list (string * num)) :
  push_all points Client.empty_chart
  = {| Client.labels := lastn 30 (map fst points);
       Client.data := lastn 30 (map snd points) |}
  /\ List.length (Client.labels (push_all points Client.empty_chart))
     = Nat.min 30 (List.length points)
  /\ List.length (Client.data (push_all points Client.empty_chart))
     = Nat.min 30 (List.length points).
Proof.
  assert (H : push_all points Client.empty_chart
              = {| Client.labels := lastn 30 (map fst points);
                   Client.data := lastn 30 (map snd points) |}).
  { induction points as [|p points IH] using rev_ind; [reflexivity|].
    unfold push_all in *. rewrite fold_left_app. cbn [fold_left]. rewrite IH.
    rewrite !map_app. cbn [map].
    apply pushChart_window. now rewrite !length_map. }
  split; [exact H|]. rewrite H. cbn [Client.labels Client.data].
  rewrite !lastn_length, !length_map. split; reflexivity.
Qed.

(** ** The throttle of the alerts *)

Section Throttle.
Variable kind : Client.alert -> bool.
Variable get : Client.LastAlert -> Z.
Variable d : Z.
Hypothesis step :
  forall th now cpu ram battery la,
    let '(out, la') := Client.checkAlerts th now cpu ram battery la in
    (existsb kind out = true /\ get la' = now /\ d < now - get la)
    \/ (existsb kind out = false /\ get la' = get la).

Lemma run_spaced (calls : list Client.Call) (la : Client.LastAlert) :
  spaced d (get la :: Client.times_of kind (fst (Client.run calls la))).
Proof.
  revert la. induction calls as [|c rest IH]; intros la.
  - repeat constructor.
  - cbn [Client.run].
    pose proof (step (Client.c_th c) (Client.c_now c) (Client.c_cpu c)
                  (Client.c_ram c) (Client.c_battery c) la) as Hs.
    destruct (Client.checkAlerts _ _ _ _ _ la) as [out l1].
    specialize (IH l1).
    destruct (Client.run rest l1) as [log l2]. cbn [fst] in *.
    unfold Client.times_of in *. cbn [filter snd].
    destruct Hs as [(Hk & Hg & Hd) | (Hk & Hg)]; rewrite Hk.
    + cbn [map fst]. rewrite Hg in IH.
      constructor; [exact IH|]. constructor. exact Hd.
    + rewrite Hg in IH. exact IH.
Qed.

End Throttle.

Lemma checkAlerts_cpu_step th now cpu ram battery la :
  let '(out, la') := Client.checkAlerts th now cpu ram battery la in
  (existsb Client.is_HighCpu out = true /\ Client.la_cpu la' = now
   /\ 1000 * 60 * 3 < now - Client.la_cpu la)
  \/ (existsb Client.is_HighCpu out = false
      /\ Client.la_cpu la' = Client.la_cpu la).
Proof.
  unfold Client.checkAlerts. destruct th as [r|]; [|right; split; reflexivity].
  set (t := match r with Some t => t | None => Client.fallback_thresholds end).
  destruct (num_ge cpu (ToNumber (t_cpu t))); cbn [andb];
    [destruct (Z.ltb_spec (1000 * 60 * 3) (now - Client.la_cpu la))|];
    repeat match goal with
           | |- context [if ?b then _ else _] => destruct b
           end; cbn; auto.
Qed.

Lemma checkAlerts_ram_step th now cpu ram battery la :
  let '(out, la') := Client.checkAlerts th now cpu ram battery la in
  (existsb Client.is_HighRam out = true /\ Client.la_ram la' = now
   /\ 1000 * 60 * 3 < now - Client.la_ram la)
  \/ (existsb Client.is_HighRam out = false
      /\ Client.la_ram la' = Client.la_ram la).
Proof.
  unfold Client.checkAlerts. destruct th as [r|]; [|right; split; reflexivity].
  set (t := match r with Some t => t | None => Client.fallback_thresholds end).
  destruct (num_ge cpu (ToNumber (t_cpu t)) && _)%bool;
    cbn [Client.la_ram];
    (destruct (num_ge ram (ToNumber (t_ram t))); cbn [andb];
     [destruct (Z.ltb_spec (1000 * 60 * 3) (now - Client.la_ram la))|]);
    repeat match goal with
           | |- context [if ?b then _ else _] => destruct b
           end; cbn; auto.
Qed.

Lemma checkAlerts_battery_step th now cpu ram battery la :
  let '(out, la') := Client.checkAlerts th now cpu ram battery la in
  (existsb Client.is_LowBattery out = true /\ Client.la_battery la' = now
   /\ 1000 * 60 * 30 < now - Client.la_battery la)
  \/ (existsb Client.is_LowBattery out = false
      /\ Client.la_battery la' = Client.la_battery la).
Proof.
  unfold Client.checkAlerts. destruct th as [r|]; [|right; split; reflexivity].
  set (t := match r with Some t => t | None => Client.fallback_thresholds end).
  destruct (num_ge cpu (ToNumber (t_cpu t)) && _)%bool;
    destruct (num_ge ram (ToNumber (t_ram t)) && _)%bool;
    cbn [Client.la_battery];
    set (g := (match battery with Null => false | _ => true end
               && match battery with Str "N/A" => false | _ => true end
               && js_le battery (t_battery t))%bool);
    destruct g; cbn [andb];
    try (destruct (Z.ltb_spec (1000 * 60 * 30) (now - Client.la_battery la)));
    cbn; auto.
Qed.

(** X2. Over any sequence of calls of [checkAlerts], two alerts of the same
    kind are never close: each CPU alert comes more than 3 minutes after
    the CPU alert before it (and after the initial mark), each RAM alert
    likewise, and each battery alert more than 30 minutes after the one
    before, whatever the other kinds do in between. *)
Theorem alerts_spaced (calls : list Client.Call) (lastAlert : Client.LastAlert) :
  let log := fst (Client.run calls lastAlert) in
  spaced (1000 * 60 * 3)
    (Client.la_cpu lastAlert :: Client.times_of Client.is_HighCpu log)
  /\ spaced (1000 * 60 * 3)
       (Client.la_ram lastAlert :: Client.times_of Client.is_HighRam log)
  /\ spaced (1000 * 60 * 30)
       (Client.la_battery lastAlert :: Client.times_of Client.is_LowBattery log).
Proof.
  intros log. subst log. split; [|split].
  - apply (run_spaced Client.is_HighCpu Client.la_cpu); apply checkAlerts_cpu_step.
  - apply (run_spaced Client.is_HighRam Client.la_ram); apply checkAlerts_ram_step.
  - apply (run_spaced Client.is_LowBattery Client.la_battery);
      apply checkAlerts_battery_step.
Qed.

(** X3. Two readings at or above the CPU threshold, the second at most 3
    minutes after the first, raise exactly one CPU alert when an alert was
    due at the first: the first call raises it, the second raises none, and
    the throttle keeps the time of the first. *)
Theorem one_cpu_alert_for_a_pair (th : Thresholds) (now1 now2 : Z)
  (cpu1 cpu2 ram1 ram2 : num) (battery1 battery2 : value)
  (lastAlert : Client.LastAlert) :
  num_ge cpu1 (ToNumber (t_cpu th)) = true ->
  num_ge cpu2 (ToNumber (t_cpu th)) = true ->
  1000 * 60 * 3 < now1 - Client.la_cpu lastAlert ->
  now2 - now1 <= 1000 * 60 * 3 ->
  let '(out1, l1) :=
    Client.checkAlerts (Resolved (Some th)) now1 cpu1 ram1 battery1 lastAlert in
  let '(out2, l2) :=
    Client.checkAlerts (Resolved (Some th)) now2 cpu2 ram2 battery2 l1 in
  filter Client.is_HighCpu out1 = [Client.HighCpu cpu1]
  /\ filter Client.is_HighCpu out2 = []
  /\ Client.la_cpu l2 = now1.
Proof.
  intros H1 H2 Hdue Hnear.
  assert (E1 : (1000 * 60 * 3 <? now1 - Client.la_cpu lastAlert)%Z = true)
    by (apply Z.ltb_lt; exact Hdue).
  assert (E2 : (1000 * 60 * 3 <? now2 - now1)%Z = false)
    by (apply Z.ltb_ge; exact Hnear).
  unfold Client.checkAlerts. rewrite H1, H2, E1. cbn [andb Client.la_ram].
  repeat match goal with
         | |- context [if ?b then _ else _] =>
             lazymatch b with
             | context [now2] => fail
             | _ => destruct b
             end
         end;
    cbn [Client.la_cpu Client.la_ram Client.la_battery]; rewrite E2;
    cbn [andb Client.la_ram Client.la_battery];
    repeat match goal with
           | |- context [if ?b then _ else _] => destruct b
           end; cbn; auto.
Qed.

Lemma one_cpu_alert_for_a_pair_witness :
  let '(out1, l1) :=
    Client.checkAlerts (Resolved (Some Client.fallback_thresholds)) 1000000
      (Fin 91) (Fin 40) (Num (Fin 80)) Client.lastAlert_init in
  let '(out2, l2) :=
    Client.checkAlerts (Resolved (Some Client.fallback_thresholds)) 1060000
      (Fin 93) (Fin 40) (Num (Fin 80)) l1 in
  filter Client.is_HighCpu out1 = [Client.HighCpu (Fin 91)]
  /\ filter Client.is_HighCpu out2 = []
  /\ Client.la_cpu l2 = 1000000.
Proof.
  refine (one_cpu_alert_for_a_pair Client.fallback_thresholds 1000000 1060000
            (Fin 91) (Fin 93) (Fin 40) (Fin 40) (Num (Fin 80)) (Num (Fin 80))
            Client.lastAlert_init _ _ _ _);
    [reflexivity | reflexivity | reflexivity | discriminate].
Defined.

(** ** The page and the server together *)

Lemma checkAlerts_absent_battery th now cpu ram battery la :
  battery = Null \/ battery = Str "N/A" ->
  existsb Client.is_LowBattery (fst (Client.checkAlerts th now cpu ram battery la))
  = false
  /\ Client.la_battery (snd (Client.checkAlerts th now cpu ram battery la))
     = Client.la_battery la.
Proof.
  intros Hb. unfold Client.checkAlerts. destruct th as [r|]; [|split; reflexivity].
  destruct Hb as [-> | ->]; cbn [andb];
    repeat match goal with
           | |- context [if ?b then _ else _] => destruct b
           end; cbn; auto.
Qed.

Lemma run_absent_battery (calls : list Client.Call) (la : Client.LastAlert) :
  Forall (fun c => Client.c_battery c = Null \/ Client.c_battery c = Str "N/A")
         calls ->
  Client.times_of Client.is_LowBattery (fst (Client.run calls la)) = []
  /\ Client.la_battery (snd (Client.run calls la)) = Client.la_battery la.
Proof.
  intros H. revert la. induction H as [|c rest Hc _ IH]; intros la.
  - split; reflexivity.
  - cbn [Client.run].
    destruct (checkAlerts_absent_battery (Client.c_th c) (Client.c_now c)
                (Client.c_cpu c) (Client.c_ram c) (Client.c_battery c) la Hc)
      as [H1 H2].
    destruct (Client.checkAlerts _ _ _ _ _ la) as [out l1]. cbn [fst snd] in *.
    destruct (IH l1) as [H3 H4].
    destruct (Client.run rest l1) as [log l2]. cbn [fst snd] in *.
    unfold Client.times_of in *. cbn [filter snd]. rewrite H1.
    split; [exact H3 | congruence].
Qed.

Section PageAndServer.
Context {rt : Runtime}.

(** X4. On a machine whose battery sensor flags no battery, the page that
    reads the reply of GET /api/stats shows N/A for the battery, and
    [checkAlerts], called with what the page read, never raises a battery
    alert, however often and whenever it is called; the battery throttle
    stays where it was. *)
Theorem no_battery_no_alert (poll : Robust.StatsPoll) (now : string)
  (page : Client.Page) :
  truthy (opt_field (Robust.sp_battery poll) hasbattery) = false ->
  exists s : Robust.Stats,
    Robust.api_stats (Resolved poll) = Json s
    /\ let '(page', (_, _, battery)) := Client.fetchStats (stats_body s) now page in
       Client.batteryEl page' = "N/A"%string
       /\ forall (calls : list Client.Call) (lastAlert : Client.LastAlert),
           Forall (fun c => Client.c_battery c = battery) calls ->
           Client.times_of Client.is_LowBattery
             (fst (Client.run calls lastAlert)) = []
           /\ Client.la_battery (snd (Client.run calls lastAlert))
              = Client.la_battery lastAlert.
Proof.
  intros H. eexists. split; [reflexivity|].
  cbn [Client.fetchStats stats_body Client.sb_battery Robust.battery
       Client.batteryEl]. rewrite H. cbn [json_value].
  split; [reflexivity|].
  intros calls la Hc. apply run_absent_battery.
  eapply Forall_impl; [|exact Hc]. cbv beta. intros c ->. now left.
Qed.

(** X5. Whatever the sensors report, the cpu and ram the page plots and
    hands to [checkAlerts] after GET /api/stats are finite Numbers: the
    cpu and ram of the reply when these are finite, and 0 when the server
    computed NaN or an infinity (JSON carries [null] then). *)
Theorem plotted_values_finite (poll : Robust.StatsPoll) (now : string)
  (page : Client.Page) :
  exists s : Robust.Stats,
    Robust.api_stats (Resolved poll) = Json s
    /\ let '(page', (cpu, ram, _)) := Client.fetchStats (stats_body s) now page in
       isFinite cpu = true /\ isFinite ram = true
       /\ Num cpu = match Robust.cpu s with
                    | Num (Fin q) => Num (Fin q)
                    | _ => Num (Fin 0)
                    end
       /\ Num ram = match Robust.ram s with
                    | Num (Fin q) => Num (Fin q)
                    | _ => Num (Fin 0)
                    end.
Proof.
  eexists. split; [reflexivity|].
  cbn [Client.fetchStats stats_body Client.sb_cpu Client.sb_cpuLoad Client.sb_ram
       Client.sb_usedMem Robust.cpu Robust.ram Client.cpuChart Client.ramChart].
  set (c := ToNumber (coalesce (coalesce (opt_toFixed2 _) _) _)).
  set (r := ToNumber (Str _)).
  destruct c, r; cbn; repeat split; reflexivity.
Qed.

End PageAndServer.

Lemma no_battery_no_alert_witness :
  exists s : Robust.Stats,
    @Robust.api_stats hundredths_runtime (Resolved poll_no_battery) = Json s
    /\ let '(page', (_, _, battery)) :=
         @Client.fetchStats hundredths_runtime (stats_body s) "10:00:00 AM"
           empty_page in
       Client.batteryEl page' = "N/A"%string
       /\ forall (calls : list Client.Call) (lastAlert : Client.LastAlert),
           Forall (fun c => Client.c_battery c = battery) calls ->
           Client.times_of Client.is_LowBattery
             (fst (Client.run calls lastAlert)) = []
           /\ Client.la_battery (snd (Client.run calls lastAlert))
              = Client.la_battery lastAlert.
Proof.
  refine (@no_battery_no_alert hundredths_runtime poll_no_battery "10:00:00 AM"
            empty_page _).
  reflexivity.
Defined.

(** ** How close the percentages are *)




(** ** More on the log endpoint *)

Local Open Scope string_scope.

Lemma parseInt10_minus_decimal (n : N) :
  parseInt10 (String "-" (decimal n)) = Fin (inject_Z (- Z.of_N n)).
Proof.
  unfold parseInt10. cbn [trimStart].
  change (is_ws "-") with false. cbv iota.
  destruct (scan_decimal n "") as [k Hk]. rewrite append_empty_r in Hk.
  rewrite Hk. reflexivity.
Qed.

Local Open Scope list_scope.

(** The reply for a positive [n], for a missing [n], and for a negative
    one. *)
Lemma api_logs_positive (content : string) (n : positive) :
  Robust.api_logs (Some content) (Some (decimal (Npos n)))
  = Json (lastn (Pos.to_nat n) (split_lines (trim content))).
Proof.
  unfold Robust.api_logs. rewrite parseInt10_decimal.
  change (or_else (Num (Fin (inject_Z (Z.of_N (Npos n))))) (Num (Fin 200)))
    with (Num (Fin (inject_Z (Zpos n)))).
  cbn [ToNumber]. now rewrite slice_from_neg.
Qed.

Lemma api_logs_default (content : string) :
  Robust.api_logs (Some content) None
  = Json (lastn 200 (split_lines (trim content))).
Proof.
  unfold Robust.api_logs.
  change (or_else (Num (parseInt10 "undefined")) (Num (Fin 200)))
    with (Num (Fin (inject_Z 200))).
  cbn [ToNumber]. now rewrite (slice_from_neg 200).
Qed.

Lemma skipn_min {A : Type} (k : nat) (l : list A) :
  skipn (Nat.min k (List.length l)) l = skipn k l.
Proof.
  destruct (Nat.le_gt_cases k (List.length l)) as [H|H].
  - now rewrite Nat.min_l.
  - rewrite Nat.min_r by lia. rewrite !skipn_all2 by lia. reflexivity.
Qed.

(** X7. The edges of the parameter [n] of GET /api/logs. A value that
    [parseInt] reads as NaN or as 0 counts as no value: the reply is that
    of the default, the last 200 lines. A negative value [-k] does not
    bound the reply: the first [k] lines of the log are left out and all
    the others are returned. *)
Theorem api_logs_edges (content : string) :
  (forall s : string,
      parseInt10 s = NaN \/ parseInt10 s = Fin 0 ->
      Robust.api_logs (Some content) (Some s)
      = Robust.api_logs (Some content) None)
  /\ (forall k : positive,
         Robust.api_logs (Some content) (Some (String "-" (decimal (Npos k))))
         = Json (skipn (Pos.to_nat k) (split_lines (trim content)))).
Proof.
  split.
  - intros s [H|H]; unfold Robust.api_logs; rewrite H; reflexivity.
  - intros k. unfold Robust.api_logs. rewrite parseInt10_minus_decimal.
    change (or_else (Num (Fin (inject_Z (- Z.of_N (Npos k))))) (Num (Fin 200)))
      with (Num (Fin (inject_Z (Zneg k)))).
    cbn [ToNumber]. unfold num_neg.
    change (- inject_Z (Zneg k))%Q with (inject_Z (Zpos k)).
    rewrite Qred_inject_Z. unfold slice_from, slice_start.
    cbn [inject_Z Qnum Qden]. rewrite Z.quot_1_r. cbn [Z.ltb Z.compare].
    rewrite <- (skipn_min (Pos.to_nat k)). f_equal. f_equal. lia.
Qed.

Lemma api_logs_edges_witness :
  (parseInt10 "abc" = NaN \/ parseInt10 "abc" = Fin 0)
  /\ Robust.api_logs (Some "one") (Some "abc"%string)
     = Robust.api_logs (Some "one") None.
Proof.
  assert (H : parseInt10 "abc" = NaN \/ parseInt10 "abc" = Fin 0)
    by (left; reflexivity).
  split; [exact H|].
  exact (proj1 (api_logs_edges "one") "abc"%string H).
Defined.

Lemma split_lines_nonempty (s : string) : split_lines s <> [].
Proof.
  destruct s as [|c r]; cbn; [discriminate|].
  destruct (Ascii.eqb c newline); [discriminate|].
  destruct (split_lines r); discriminate.
Qed.

Lemma last_skipn {A : Type} (k : nat) (l : list A) (d : A) :
  (k < List.length l)%nat -> last (skipn k l) d = last l d.
Proof.
  revert l. induction k as [|k IH]; intros l H; [reflexivity|].
  destruct l as [|x r]; [cbn in H; lia|].
  cbn [skipn]. rewrite IH by (cbn in H; lia).
  destruct r; [cbn in H; lia | reflexivity].
Qed.

(** X8. When the log file exists, the reply of GET /api/logs for a positive
    [n], and the reply without [n], is never empty, and its last line is
    the last line of the file: the most recent entry always comes, and
    comes last. *)
Theorem api_logs_ends_with_newest (content : string) (n : positive) :
  let all := split_lines (trim content) in
  exists lines default_lines : list string,
    Robust.api_logs (Some content) (Some (decimal (Npos n))) = Json lines
    /\ Robust.api_logs (Some content) None = Json default_lines
    /\ lines <> [] /\ default_lines <> []
    /\ last lines EmptyString = last all EmptyString
    /\ last default_lines EmptyString = last all EmptyString.
Proof.
  intros all.
  assert (Hall : (0 < List.length all)%nat).
  { pose proof (split_lines_nonempty (trim content)) as H. fold all in H.
    destruct all; [now destruct H | cbn; lia]. }
  assert (Hk : forall k, (0 < k)%nat ->
                 lastn k all <> [] /\ last (lastn k all) EmptyString
                                      = last all EmptyString).
  { intros k Hk. unfold lastn. split.
    - intros E. apply (f_equal (@List.length string)) in E.
      rewrite length_skipn in E. cbn in E. lia.
    - apply last_skipn. lia. }
  exists (lastn (Pos.to_nat n) all), (lastn 200 all).
  split; [apply api_logs_positive|]. split; [apply api_logs_default|].
  destruct (Hk (Pos.to_nat n)) as [H1 H2]; [lia|].
  destruct (Hk 200%nat) as [H3 H4]; [lia|]. auto.
Qed.

(** ** The log area of the page *)

Local Open Scope string_scope.

Lemma concat_cons (sep x : string) (y : string) (ys : list string) :
  String.concat sep (x :: y :: ys)%list = x ++ sep ++ String.concat sep (y :: ys)%list.
Proof. reflexivity. Qed.

(** Joining the lines of a text by line feeds gives the text back. *)
Lemma concat_split_lines (s : string) :
  String.concat (String newline "") (split_lines s) = s.
Proof.
  induction s as [|c r IH]; [reflexivity|].
  cbn [split_lines]. pose proof (split_lines_nonempty r) as Hne.
  destruct (split_lines r) as [|l ls]; [now destruct Hne|].
  destruct (Ascii.eqb c newline) eqn:E.
  - apply Ascii.eqb_eq in E. subst c. rewrite concat_cons, IH. reflexivity.
  - destruct ls as [|l2 ls].
    + cbn in IH |- *. now rewrite IH.
    + rewrite <- IH. rewrite !concat_cons. reflexivity.
Qed.

(** The lines from some point on, joined, are the end of all lines joined. *)
Lemma concat_skipn_tail (k : nat) (ls : list string) :
  exists older : string,
    String.concat (String newline "") ls
    = older ++ String.concat (String newline "") (skipn k ls).
Proof.
  revert ls. induction k as [|k IH]; intros ls; [now exists ""|].
  destruct ls as [|x r]; [now exists ""|].
  cbn [skipn]. destruct (IH r) as [older Ho].
  destruct r as [|y r].
  - exists x. rewrite skipn_nil. cbn. now rewrite append_empty_r.
  - exists (x ++ String newline "" ++ older).
    rewrite concat_cons, Ho, !append_assoc. reflexivity.
Qed.

(** X9. What the log area shows after [fetchLogs] (which asks for n=200) is
    always the end of the trimmed log file, and the whole of it when the
    file has at most 200 lines; when there is no log file the area is
    empty. *)
Theorem fetchLogs_shows_tail (content : string) :
  let shown := Client.fetchLogs (Robust.api_logs (Some content) (Some "200")) in
  (exists older : string, trim content = older ++ shown)
  /\ ((List.length (split_lines (trim content)) <= 200)%nat -> shown = trim content)
  /\ Client.fetchLogs (Robust.api_logs None (Some "200")) = "".
Proof.
  intros shown. subst shown.
  change "200" with (decimal (Npos 200)). rewrite api_logs_positive.
  cbn [Client.fetchLogs]. change (Pos.to_nat 200) with 200%nat.
  split; [|split].
  - unfold lastn.
    destruct (concat_skipn_tail
                (List.length (split_lines (trim content)) - 200)
                (split_lines (trim content))) as [older H].
    exists older. rewrite <- H. symmetry. apply concat_split_lines.
  - intros H. rewrite lastn_short by exact H. apply concat_split_lines.
  - reflexivity.
Qed.

Lemma fetchLogs_shows_tail_witness :
  (List.length (split_lines (trim " a b ")) <= 200)%nat
  /\ Client.fetchLogs (Robust.api_logs (Some " a b ") (Some "200")) = trim " a b ".
Proof.
  assert (H : (List.length (split_lines (trim " a b ")) <= 200)%nat)
    by (cbn; lia).
  split; [exact H|].
  exact (proj1 (proj2 (fetchLogs_shows_tail " a b ")) H).
Defined.

Local Open Scope list_scope.

(** ** The thresholds over time *)

Lemma post_thresholds_numeric (t : Thresholds) (b : option ThresholdsBody) :
  numeric_thresholds t -> numeric_thresholds (fst (Robust.post_thresholds t b)).
Proof.
  intros (H1 & H2 & H3). unfold Robust.post_thresholds, numeric_thresholds.
  cbn [fst].
  set (body := match b with Some b0 => b0 | None => _ end).
  destruct (is_number (b_cpu body)) eqn:E1;
    destruct (is_number (b_ram body)) eqn:E2;
    destruct (is_number (b_battery body)) eqn:E3; cbn; auto.
Qed.

(** X10. The thresholds the server holds are Numbers at all times: they
    start as 90, 85 and 15 and stay Numbers through any sequence of POST
    /api/thresholds, whatever the bodies hold; and a POST repeated with the
    same body changes nothing more. *)
Theorem thresholds_stay_numeric (bodies : list (option ThresholdsBody)) :
  numeric_thresholds (thresholds_after bodies thresholds_init)
  /\ (forall (t : Thresholds) (b : option ThresholdsBody),
        Robust.post_thresholds (fst (Robust.post_thresholds t b)) b
        = Robust.post_thresholds t b).
Proof.
  split.
  - unfold thresholds_after.
    assert (H : numeric_thresholds thresholds_init) by (repeat split).
    revert H. generalize thresholds_init.
    induction bodies as [|b r IH]; intros t H; [exact H|].
    cbn [fold_left]. apply IH, post_thresholds_numeric, H.
  - intros [c r bt] b. unfold Robust.post_thresholds.
    set (body := match b with Some b0 => b0 | None => _ end).
    destruct (is_number (b_cpu body));
      destruct (is_number (b_ram body));
      destruct (is_number (b_battery body)); reflexivity.
Qed.

(** ** The mock battery *)

Section MockStats.
Context {rt : Runtime}.

(** X11. The battery of GET /api/stats in the mock-battery server is a
    Number whatever the sensor reports: the sensor's percent when a battery
    is flagged and its percent is a Number, and otherwise a made-up whole
    number between 60 and 100. *)
Theorem mock_stats_battery (cpuLoad : CurrentLoad) (mem : option Mem)
  (battery : option Battery) (r : Q) :
  (0 <= r)%Q -> (r < 1)%Q ->
  let '(_, _, batteryPct) := Mock.stats_values cpuLoad mem battery r in
  is_number batteryPct = true
  /\ ((truthy (opt_field battery hasbattery)
       && is_number (opt_field battery percent))%bool = true ->
      batteryPct = opt_field battery percent)
  /\ ((truthy (opt_field battery hasbattery)
       && is_number (opt_field battery percent))%bool = false ->
      exists z : Z, batteryPct = Num (Fin (inject_Z z)) /\ 60 <= z <= 100).
Proof.
  intros H0 H1. cbn [Mock.stats_values].
  destruct (mock_percent_range r H0 H1) as (z & Hz & Hr).
  destruct (truthy (opt_field battery hasbattery)
            && is_number (opt_field battery percent))%bool eqn:E.
  - apply andb_true_iff in E. destruct E as [_ E].
    split; [exact E|]. split; [reflexivity | discriminate].
  - rewrite Hz. split; [reflexivity|]. split; [discriminate | eauto].
Qed.

End MockStats.

Lemma mock_stats_battery_witness :
  let '(_, _, batteryPct) :=
    @Mock.stats_values hundredths_runtime load_12 (Some mem_half_used)
      (Some no_battery) (1 # 2) in
  is_number batteryPct = true
  /\ ((truthy (opt_field (Some no_battery) hasbattery)
       && is_number (opt_field (Some no_battery) percent))%bool = true ->
      batteryPct = opt_field (Some no_battery) percent)
  /\ ((truthy (opt_field (Some no_battery) hasbattery)
       && is_number (opt_field (Some no_battery) percent))%bool = false ->
      exists z : Z, batteryPct = Num (Fin (inject_Z z)) /\ 60 <= z <= 100).
Proof.
  refine (@mock_stats_battery hundredths_runtime load_12 (Some mem_half_used)
            (Some no_battery) (1 # 2) _ _); [discriminate | reflexivity].
Defined.

(** ** Two battery queries compared *)

(** X12. Whenever the robust GET /api/stats reports a battery (a value
    other than [null]), the battery query of the power-supply-fallback
    server reports the same value on the same reading, whatever the power
    supply says. *)
Theorem fallback_extends_robust {rt : Runtime} (poll : Robust.StatsPoll)
  (s : Robust.Stats) (powerSupply : outcome (option PowerSupply)) :
  Robust.api_stats (Resolved poll) = Json s ->
  Robust.battery s <> Null ->
  Fallback.getBatteryInfo (Resolved (Robust.sp_battery poll)) powerSupply
  = Robust.battery s.
Proof.
  intros Hs Hn. injection Hs as <-. cbn [Robust.battery] in *.
  unfold Fallback.getBatteryInfo.
  destruct (Robust.sp_battery poll) as [b|]; cbn [opt_field] in *;
    [|now destruct Hn].
  destruct (truthy (hasbattery b)); [reflexivity | now destruct Hn].
Qed.

Lemma fallback_extends_robust_witness :
  exists s : Robust.Stats,
    @Robust.api_stats hundredths_runtime
      (Resolved {| Robust.sp_cpuLoad := load_12; Robust.sp_mem := Some mem_half_used;
                   Robust.sp_battery := Some battery_80; Robust.sp_fsSize := None;
                   Robust.sp_graphics := None |}) = Json s
    /\ Robust.battery s <> Null
    /\ Fallback.getBatteryInfo (Resolved (Some battery_80)) Rejected
       = Robust.battery s.
Proof.
  eexists. split; [reflexivity|].
  assert (H : Num (Fin 80) <> Null) by discriminate.
  split; [exact H|].
  exact (@fallback_extends_robust hundredths_runtime
           {| Robust.sp_cpuLoad := load_12; Robust.sp_mem := Some mem_half_used;
              Robust.sp_battery := Some battery_80; Robust.sp_fsSize := None;
              Robust.sp_graphics := None |} _ Rejected eq_refl H).
Defined.

(** ** The process table of a snapshot *)

Lemma by_raw_cpu_desc_key (a b : Process) :
  finite_raw_cpu a -> finite_raw_cpu b ->
  cmp_sign (Robust.by_raw_cpu_desc a b) = (raw_cpu_key b ?= raw_cpu_key a)%Q.
Proof.
  intros [qa Ha] [qb Hb]. unfold Robust.by_raw_cpu_desc, raw_cpu_key.
  fold (raw_cpu a) (raw_cpu b). rewrite Ha, Hb. apply Qcompare_sub_0.
Qed.

(** X13. When every process the sensor lists has a finite cpu, the process
    table of a snapshot holds at most ten of them, those of highest raw
    cpu, in descending order of it, processes of the same cpu in their
    order of enumeration. *)
Theorem snapshot_top10 {rt : Runtime} (poll : Robust.SnapshotPoll) :
  Forall finite_raw_cpu (process_list (Robust.np_procs poll)) ->
  let procs := process_list (Robust.np_procs poll) in
  let '(_, _, _, topProcs) := Robust.snapshot_values poll in
  exists rest : list Process,
    List.length topProcs = Nat.min 10 (List.length procs)
    /\ Permutation (topProcs ++ rest) procs
    /\ StronglySorted (key_ge raw_cpu_key) topProcs
    /\ (forall a b, In a topProcs -> In b rest -> key_ge raw_cpu_key a b)
    /\ (forall c : Q, exists more,
          filter (fun p => Qeq_bool (raw_cpu_key p) c) procs
          = filter (fun p => Qeq_bool (raw_cpu_key p) c) topProcs ++ more).
Proof.
  intros Hf procs. cbn [Robust.snapshot_values]. fold procs in Hf |- *.
  set (sorted := array_sort Robust.by_raw_cpu_desc procs).
  assert (Hs : StronglySorted (key_ge raw_cpu_key) sorted).
  { apply (array_sort_sorted _ _ raw_cpu_key finite_raw_cpu by_raw_cpu_desc_key).
    exact Hf. }
  assert (Hp : Permutation sorted procs) by apply array_sort_perm.
  exists (skipn 10 sorted). unfold slice0. repeat split.
  - rewrite length_firstn. f_equal. apply Permutation_length, Hp.
  - rewrite firstn_skipn. exact Hp.
  - apply StronglySorted_firstn, Hs.
  - rewrite <- (firstn_skipn 10 sorted) in Hs.
    apply StronglySorted_app_inv in Hs. tauto.
  - intros c.
    rewrite <- (array_sort_stable _ _ raw_cpu_key finite_raw_cpu
                  by_raw_cpu_desc_key c procs Hf).
    apply filter_firstn_prefix.
Qed.

Lemma snapshot_top10_witness :
  let poll :=
    {| Robust.np_stats := load_12; Robust.np_mem := Some mem_half_used;
       Robust.np_battery := Some no_battery; Robust.np_procs := plain_processes |} in
  let procs := process_list plain_processes in
  let '(_, _, _, topProcs) := @Robust.snapshot_values hundredths_runtime poll in
  exists rest : list Process,
    List.length topProcs = Nat.min 10 (List.length procs)
    /\ Permutation (topProcs ++ rest) procs
    /\ StronglySorted (key_ge raw_cpu_key) topProcs
    /\ (forall a b, In a topProcs -> In b rest -> key_ge raw_cpu_key a b)
    /\ (forall c : Q, exists more,
          filter (fun p => Qeq_bool (raw_cpu_key p) c) procs
          = filter (fun p => Qeq_bool (raw_cpu_key p) c) topProcs ++ more).
Proof.
  refine (@snapshot_top10 hundredths_runtime
            {| Robust.np_stats := load_12; Robust.np_mem := Some mem_half_used;
               Robust.np_battery := Some no_battery;
               Robust.np_procs := plain_processes |} _).
  repeat constructor; eexists; reflexivity.
Defined.

Lemma fallback_api_processes_top5_witness :
  let mapped :=
    map (@Fallback.mapped_entry hundredths_runtime) (process_list plain_processes) in
  exists top rest : list ProcessSample,
    @Fallback.api_processes hundredths_runtime (Resolved plain_processes) = Json top
    /\ (List.length top <= 5)%nat
    /\ Permutation (top ++ rest) mapped
    /\ StronglySorted (key_ge cpu_number) top
    /\ (forall a b, In a top -> In b rest -> key_ge cpu_number a b)
    /\ (forall c : Q, exists more,
          filter (fun e => Qeq_bool (cpu_number e) c) mapped
          = filter (fun e => Qeq_bool (cpu_number e) c) top ++ more).
Proof.
  refine (@fallback_api_processes_top5 hundredths_runtime plain_processes _).
  repeat constructor; eexists; (split; [reflexivity|]); split;
    first [discriminate | reflexivity].
Defined.

(** ** A tick of the logger, then the log endpoint *)

Lemma lastn_nil {A : Type} (n : nat) : lastn n (@nil A) = [].
Proof. unfold lastn. apply skipn_nil. Qed.

Lemma lastn_1_snoc {A : Type} (l : list A) (x : A) :
  lastn (Pos.to_nat 1) (l ++ [x]) = [x].
Proof.
  unfold lastn. rewrite length_app. change (Pos.to_nat 1) with 1%nat.
  change (List.length [x]) with 1%nat.
  replace (List.length l + 1 - 1)%nat with (List.length l) by lia.
  rewrite skipn_app, skipn_all, Nat.sub_diag. reflexivity.
Qed.

Lemma log_after_snoc (ls : list string) (l : string) :
  log_after (ls ++ [l]) = appendLogAsync l (log_after ls).
Proof. unfold log_after. now rewrite fold_left_app. Qed.

Lemma api_logs_log_after (ls : list string) (n : positive) :
  Forall log_line ls ->
  Robust.api_logs (log_after ls) (Some (decimal (Npos n)))
  = Json (lastn (Pos.to_nat n) ls).
Proof.
  intros H. destruct ls as [|l r]; [now rewrite lastn_nil|].
  destruct (log_after_lines l r H) as (c & -> & Hc).
  now rewrite api_logs_positive, Hc.
Qed.

Section TickThenRead.
Context {rt : Runtime}.

Lemma cron_tick_appends (now : string) (poll : Robust.CronPoll) (f : LogFile) :
  Robust.cron_tick now (Resolved poll) f = appendLogAsync (cron_line now poll) f.
Proof. reflexivity. Qed.

(** X14. A tick of the logger adds its line at the end of the log and
    nothing else: on a log of lines appended so far, GET /api/logs after the
    tick replies with the last [n] of the old lines followed by the new line
    (for n=1, the new line alone); a tick whose sensor poll fails leaves the
    reply as it was. *)
Theorem cron_tick_then_logs (now : string) (poll : Robust.CronPoll)
  (ls : list string) (n : positive) :
  Forall log_line ls ->
  log_line (cron_line now poll) ->
  Robust.api_logs (Robust.cron_tick now (Resolved poll) (log_after ls))
    (Some (decimal (Npos n)))
  = Json (lastn (Pos.to_nat n) (ls ++ [cron_line now poll]))
  /\ Robust.api_logs (Robust.cron_tick now (Resolved poll) (log_after ls))
       (Some "1"%string)
     = Json [cron_line now poll]
  /\ Robust.api_logs (Robust.cron_tick now Rejected (log_after ls))
       (Some (decimal (Npos n)))
     = Json (lastn (Pos.to_nat n) ls).
Proof.
  intros Hls Hl.
  assert (H : Forall log_line (ls ++ [cron_line now poll]))
    by (apply Forall_app; split; [exact Hls | constructor; [exact Hl | constructor]]).
  rewrite cron_tick_appends, <- log_after_snoc. split; [|split].
  - apply api_logs_log_after, H.
  - change "1"%string with (decimal (Npos 1)).
    rewrite (api_logs_log_after _ 1 H). f_equal. apply lastn_1_snoc.
  - cbn [Robust.cron_tick]. apply api_logs_log_after, Hls.
Qed.

(** ** The lists of GET /api/stats *)

(** X15. GET /api/stats passes every file system the sensor lists on,
    unchanged and in order, and gives one entry per graphics controller, in
    order: its model is the controller's when that is truthy and the text
    unknown otherwise, so never a falsy value, and its utilisation is never
    [undefined]. *)
Theorem api_stats_lists (poll : Robust.StatsPoll) :
  exists s : Robust.Stats,
    Robust.api_stats (Resolved poll) = Json s
    /\ Robust.ssd s = poll_fsSize poll
    /\ List.length (Robust.gpu s) = List.length (poll_controllers poll)
    /\ Forall2
         (fun c g =>
            g_model g = (if truthy (g_model c) then g_model c else Str "unknown")
            /\ truthy (g_model g) = true
            /\ g_utilizationGpu g <> Undefined
            /\ (g_utilizationGpu c <> Undefined ->
                g_utilizationGpu c <> Null ->
                g_utilizationGpu g = g_utilizationGpu c))
         (poll_controllers poll) (Robust.gpu s).
Proof.
  eexists. split; [reflexivity|]. cbn [Robust.ssd Robust.gpu].
  fold (poll_fsSize poll) (poll_controllers poll). split; [|split].
  - rewrite <- (map_id (poll_fsSize poll)) at 2. apply map_ext.
    intros []. reflexivity.
  - apply length_map.
  - induction (poll_controllers poll) as [|c r IH]; cbn [map]; constructor;
      [|exact IH].
    cbn [g_model g_utilizationGpu]. unfold or_else.
    destruct (truthy (g_model c)) eqn:E.
    + split; [reflexivity|]. split; [exact E|]. unfold coalesce.
      destruct (g_utilizationGpu c); cbn; split; congruence.
    + split; [reflexivity|]. split; [reflexivity|]. unfold coalesce.
      destruct (g_utilizationGpu c); cbn; split; congruence.
Qed.

End TickThenRead.

Lemma cron_tick_then_logs_witness :
  let now := "1/1/2025, 10:02:00 AM"%string in
  let poll :=
    {| Robust.cp_cpu := load_12; Robust.cp_mem := Some mem_half_used;
       Robust.cp_battery := Some no_battery |} in
  Forall log_line two_log_lines
  /\ log_line (@cron_line hundredths_runtime now poll)
  /\ @Robust.api_logs
       (@Robust.cron_tick hundredths_runtime now (Resolved poll)
          (log_after two_log_lines)) (Some "1"%string)
     = Json ["[1/1/2025, 10:02:00 AM] CPU:12.5% RAM:25% Battery:N/A"%string].
Proof.
  intros now poll.
  assert (H1 : Forall log_line two_log_lines)
    by (repeat constructor; try discriminate; reflexivity).
  assert (H2 : log_line (@cron_line hundredths_runtime now poll))
    by (repeat split; try discriminate; reflexivity).
  split; [exact H1|]. split; [exact H2|].
  exact (proj1 (proj2 (@cron_tick_then_logs hundredths_runtime now poll
                         two_log_lines 1 H1 H2))).
Defined.

(** ** [server.cjs]: the report and the JSON log *)

Section ServerReport.
Context {rt : Runtime}.

Lemma getSystemInfo_unreadable (cpu : outcome CurrentLoad)
  (mem : outcome (option Mem)) (battery : outcome (option Battery)) :
  sensors_unreadable cpu mem ->
  ServerCjs.getSystemInfo cpu mem battery = ServerCjs.info_unavailable.
Proof.
  unfold ServerCjs.getSystemInfo, ServerCjs.system_info.
  intros [-> | [-> | [-> | (cl & -> & Hn)]]].
  - reflexivity.
  - now destruct cpu.
  - now destruct cpu.
  - destruct mem as [[m|]|]; try reflexivity.
    destruct (currentLoad cl) eqn:E; try reflexivity.
    now elim (Hn n).
Qed.

Lemma getBatteryInfo_no_reading (battery : outcome (option Battery)) :
  no_battery_reading battery ->
  ServerCjs.getBatteryInfo battery
  = {| ServerCjs.bi_percent := Str "N/A"; ServerCjs.isCharging := Bool false |}.
Proof.
  destruct battery as [[b|]|]; cbn; try reflexivity.
  now intros ->.
Qed.

(** X17. The report of [server.cjs]. When the load or the memory cannot be
    read, every figure of the report reads N/A and the battery is given as
    not charging, whatever the battery sensor says; and when the battery
    sensor fails or flags no battery, the battery line reads N/A and not
    charging, whatever the other sensors say. The title comes first and the
    time last in both cases. *)
Theorem report_without_readings (cpu : outcome CurrentLoad)
  (mem : outcome (option Mem)) (battery : outcome (option Battery)) (now : string) :
  (sensors_unreadable cpu mem ->
   api_report cpu mem battery now
   = [ "System Resource Report"; "CPU Load: N/A%"; "Memory Usage: N/A%";
       "Battery: N/A% (Not Charging)"; ("Generated at: " ++ now)%string ])
  /\ (no_battery_reading battery ->
      exists cpuLine memLine : string,
        api_report cpu mem battery now
        = [ "System Resource Report"; cpuLine; memLine;
            "Battery: N/A% (Not Charging)"; ("Generated at: " ++ now)%string ]).
Proof.
  unfold api_report. split.
  - intros H. now rewrite getSystemInfo_unreadable.
  - intros H. unfold ServerCjs.getSystemInfo.
    rewrite (getBatteryInfo_no_reading _ H). unfold ServerCjs.system_info.
    destruct cpu as [cl|]; [|do 2 eexists; reflexivity].
    destruct mem as [[m|]|]; try (do 2 eexists; reflexivity).
    destruct (call_toFixed2 (currentLoad cl)); do 2 eexists; reflexivity.
Qed.

Lemma cron_tick_entries (t : Tick) (file : ServerCjs.JsonLog) :
  ServerCjs.cron_tick (tk_timestamp t) (tk_cpu t) (tk_mem t) (tk_battery t) file
  = ServerCjs.Entries (log_entries file ++ [tick_entry t]).
Proof. reflexivity. Qed.

Lemma run_ticks_snoc (r : list Tick) (t : Tick) (file : ServerCjs.JsonLog) :
  run_ticks (r ++ [t]) file
  = ServerCjs.cron_tick (tk_timestamp t) (tk_cpu t) (tk_mem t) (tk_battery t)
      (run_ticks r file).
Proof. unfold run_ticks. now rewrite fold_left_app. Qed.

Lemma run_ticks_entries (ticks : list Tick) (file : ServerCjs.JsonLog) :
  log_entries (run_ticks ticks file) = (log_entries file ++ map tick_entry ticks)%list.
Proof.
  unfold run_ticks. revert file.
  induction ticks as [|t r IH]; intros file; cbn [fold_left map].
  - now rewrite app_nil_r.
  - rewrite IH. cbn [ServerCjs.cron_tick log_entries].
    fold (log_entries file). now rewrite <- app_assoc.
Qed.

(** X18. The JSON log of [server.cjs] only grows: after any ticks of the
    logger on a log file that is missing, unreadable as JSON or an array of
    entries, the file holds the entries it had (none in the first two cases)
    followed by one entry per tick, in the order of the ticks, each with the
    time of its tick and what [getSystemInfo] returned then; after at least
    one tick the file is an array, and a tick whose sensors fail is logged
    too, with N/A figures. *)
Theorem json_log_accumulates (ticks : list Tick) (file : ServerCjs.JsonLog) :
  log_entries (run_ticks ticks file) = (log_entries file ++ map tick_entry ticks)%list
  /\ List.length (log_entries (run_ticks ticks file))
     = (List.length (log_entries file) + List.length ticks)%nat
  /\ map ServerCjs.timestamp (log_entries (run_ticks ticks file))
     = (map ServerCjs.timestamp (log_entries file) ++ map tk_timestamp ticks)%list
  /\ (ticks <> [] ->
      run_ticks ticks file = ServerCjs.Entries (log_entries (run_ticks ticks file)))
  /\ (forall t, In t ticks -> sensors_unreadable (tk_cpu t) (tk_mem t) ->
      In {| ServerCjs.timestamp := tk_timestamp t;
            ServerCjs.info := ServerCjs.info_unavailable |}
         (log_entries (run_ticks ticks file))).
Proof.
  rewrite run_ticks_entries. split; [reflexivity|]. split; [|split; [|split]].
  - now rewrite length_app, length_map.
  - rewrite map_app, map_map. reflexivity.
  - intros Hne. destruct (exists_last Hne) as (r & t & ->).
    rewrite run_ticks_snoc, cron_tick_entries, run_ticks_entries, map_app, app_assoc.
    reflexivity.
  - intros t Hin Hu. apply in_or_app. right.
    rewrite <- (getSystemInfo_unreadable _ _ (tk_battery t) Hu).
    change (In (tick_entry t) (map tick_entry ticks)). now apply in_map.
Qed.

End ServerReport.

Lemma report_without_readings_witness :
  sensors_unreadable Rejected (Resolved (Some mem_half_used))
  /\ no_battery_reading (Resolved (Some no_battery))
  /\ @api_report hundredths_runtime Rejected (Resolved (Some mem_half_used))
       (Resolved (Some battery_80)) "1/1/2025, 10:00:00 AM"
     = [ "System Resource Report"; "CPU Load: N/A%"; "Memory Usage: N/A%";
         "Battery: N/A% (Not Charging)";
         "Generated at: 1/1/2025, 10:00:00 AM" ]%list.
Proof.
  split; [left; reflexivity|]. split; [reflexivity|].
  refine (proj1 (@report_without_readings hundredths_runtime Rejected
                   (Resolved (Some mem_half_used)) (Resolved (Some battery_80))
                   "1/1/2025, 10:00:00 AM") _).
  left; reflexivity.
Defined.
